(** * TELL data preparation: EIA 930 load files and BA population series

    A shallow embedding of

      - [tell/data_process_eia_930.py]   (module [EIA930] below), and
      - [tell/data_process_pop_interp.py] (module [PopInterp] below),

    together with the properties of the specification that concern them.

    Python exceptions are values of [PyError] carried by the [Result]
    monad; pandas tables are [Frame]s (a header and rows of cells) while
    their schema depends on the input, and lists of records once the code
    has fixed the columns.  Paths follow [posixpath]. *)

From Stdlib Require Import ZArith List String Ascii Bool Lia QArith.
From Stdlib Require Import DecimalString Permutation.
Import ListNotations.

#[local] Open Scope string_scope.
#[local] Open Scope Z_scope.

(* ------------------------------------------------------------------ *)
(** ** Python run-time: exceptions, strings, paths                      *)
(* ------------------------------------------------------------------ *)

Module Py.

Inductive PyError : Type :=
| FileNotFoundError (path : string)
| KeyError (missing : list string)
| AttributeError (attr : string)
| NameError (name : string)
| ValueError (msg : string)
| OutOfBoundsDatetime (text : string).

Inductive Result (A : Type) : Type :=
| Ok (a : A)
| Raise (e : PyError).

Arguments Ok {A} a.
Arguments Raise {A} e.

Definition bind {A B} (m : Result A) (k : A -> Result B) : Result B :=
  match m with
  | Ok a => k a
  | Raise e => Raise e
  end.

Definition is_ok {A} (m : Result A) : bool :=
  match m with Ok _ => true | Raise _ => false end.

(** The first value stored under a key. *)
Fixpoint assoc {V} (k : string) (l : list (string * V)) : option V :=
  match l with
  | [] => None
  | (k', v) :: rest => if String.eqb k' k then Some v else assoc k rest
  end.

(** [str(int)], as used by f-strings. *)
Definition str (z : Z) : string := NilZero.string_of_int (Z.to_int z).

(** [s.zfill(width)] for the non-negative numbers [strftime] prints. *)
Fixpoint zeros (n : nat) : string :=
  match n with O => EmptyString | S k => String "0" (zeros k) end.

Definition zfill (width : nat) (s : string) : string :=
  zeros (width - String.length s) ++ s.

(** [s.rfind(c)]: the index of the last occurrence of [c]. *)
Fixpoint rfind (c : ascii) (s : string) : option nat :=
  match s with
  | EmptyString => None
  | String a rest =>
      match rfind c rest with
      | Some i => Some (S i)
      | None => if Ascii.eqb a c then Some O else None
      end
  end.

Fixpoint all_chars (p : ascii -> bool) (s : string) : bool :=
  match s with
  | EmptyString => true
  | String a rest => p a && all_chars p rest
  end.

Definition startswith_sep (s : string) : bool :=
  match s with String a _ => Ascii.eqb a "/" | EmptyString => false end.

Definition endswith_sep (s : string) : bool :=
  match rfind "/" s with
  | Some i => Nat.eqb (S i) (String.length s)
  | None => false
  end.

(** [posixpath.join(a, b)] for two components. *)
Definition path_join (a b : string) : string :=
  if startswith_sep b then b
  else if (String.eqb a "" || endswith_sep a)%bool then a ++ b
  else a ++ "/" ++ b.

(** [posixpath.basename(p)]. *)
Definition basename (p : string) : string :=
  match rfind "/" p with
  | Some i => substring (S i) (String.length p - S i) p
  | None => p
  end.

(** [posixpath.splitext(p)[0]]: the extension starts at the last dot of
    the last component, leading dots of that component apart. *)
Definition splitext_root (p : string) : string :=
  match rfind "." p with
  | None => p
  | Some dot =>
      let start := match rfind "/" p with Some sep => S sep | None => O end in
      if Nat.leb start dot then
        if all_chars (fun a => Ascii.eqb a ".") (substring start (dot - start) p)
        then p
        else substring 0 dot p
      else p
  end.

End Py.

Import Py.

Declare Scope py_scope.
Delimit Scope py_scope with py.
Notation "x <- m ;; k" := (bind m (fun x => k))
  (at level 61, m at next level, right associativity) : py_scope.
#[local] Open Scope py_scope.

(* ------------------------------------------------------------------ *)
(** ** pandas tables whose columns depend on the input                  *)
(* ------------------------------------------------------------------ *)

Module Pandas.

(** A table as a delimited file has it: a header and rows of cells. *)
Record Frame (C : Type) : Type := mkFrame {
  header : list string;
  rows : list (list C)
}.

Arguments mkFrame {C} header rows.
Arguments header {C} f.
Arguments rows {C} f.

Fixpoint position (name : string) (names : list string) : option nat :=
  match names with
  | [] => None
  | n :: rest =>
      if String.eqb n name then Some O
      else option_map S (position name rest)
  end.

Definition has_column {C} (df : Frame C) (name : string) : bool :=
  match position name (header df) with Some _ => true | None => false end.

Section Cells.
Context {C : Type}.
(** The missing value of the cell type (what a short row is padded with). *)
Variable na : C.

Definition cell (hdr : list string) (name : string) (row : list C) : C :=
  match position name hdr with
  | Some i => nth i row na
  | None => na
  end.

(** [df[name]]. *)
Definition getitem (df : Frame C) (name : string) : Result (list C) :=
  match position name (header df) with
  | Some i => Ok (map (fun r => nth i r na) (rows df))
  | None => Raise (KeyError [name])
  end.

(** [df[names]] for a list of names: every missing name is reported. *)
Definition getitems (df : Frame C) (names : list string) : Result (Frame C) :=
  match filter (fun n => negb (has_column df n)) names with
  | [] =>
      Ok (mkFrame names
            (map (fun r => map (fun n => cell (header df) n r) names) (rows df)))
  | missing => Raise (KeyError missing)
  end.

Fixpoint replace_nth (i : nat) (v : C) (row : list C) : list C :=
  match i, row with
  | O, _ :: rest => v :: rest
  | O, [] => [v]
  | S k, x :: rest => x :: replace_nth k v rest
  | S k, [] => na :: replace_nth k v []
  end.

(** [df[name] = values]: overwrite the column in place when it exists,
    append it as the last column otherwise. *)
Definition setitem (df : Frame C) (name : string) (values : list C) : Frame C :=
  match position name (header df) with
  | Some i =>
      mkFrame (header df)
        (map (fun rv => replace_nth i (snd rv) (fst rv)) (combine (rows df) values))
  | None =>
      mkFrame (header df ++ [name])
        (map (fun rv =>
                replace_nth (List.length (header df)) (snd rv) (fst rv))
             (combine (rows df) values))
  end.
End Cells.

Fixpoint lookup_name (name : string) (mapping : list (string * string)) : string :=
  match mapping with
  | [] => name
  | (old, new) :: rest => if String.eqb old name then new else lookup_name name rest
  end.

(** [df.rename(columns=mapping)]. *)
Definition rename {C} (df : Frame C) (mapping : list (string * string)) : Frame C :=
  mkFrame (map (fun n => lookup_name n mapping) (header df)) (rows df).

End Pandas.

Import Pandas.

(* ------------------------------------------------------------------ *)
(** ** tell/data_process_eia_930.py                                     *)
(* ------------------------------------------------------------------ *)

Module EIA930.

Record Timestamp : Type := mkTimestamp {
  ts_year : Z; ts_month : Z; ts_day : Z; ts_hour : Z
}.

(** What a spreadsheet cell holds once read. *)
Inductive Cell : Type :=
| CTime (t : Timestamp)
| CNum (q : Q)
| CText (s : string)
| CNaN.

Definition Sheet := Frame Cell.
Definition Workbook := list (string * Sheet).

(** The xlsx files that exist, by path. *)
Definition FileSystem := list (string * Workbook).

Definition ba_name : list string :=
  ["AEC"; "YAD"; "AZPS"; "AECI"; "BPAT"; "CISO"; "CPLE"; "CHPD"; "DOPD"; "DUK";
   "EPE"; "ERCO"; "EEI"; "FPL"; "FPC"; "GVL"; "HST"; "IPCO"; "IID"; "JEA"; "LDWP"; "LGEE"; "NWMT";
   "NEVP"; "ISNE"; "NSB"; "NYIS"; "OVEC"; "PACW"; "PACE"; "GRMA"; "FMPP"; "GCPD"; "PJM"; "AVRN"; "PSCO";
   "PGE"; "PNM"; "PSEI"; "BANC"; "SRP"; "SCL"; "SCEG"; "SC"; "SPA"; "SOCO"; "TPWR"; "TAL"; "TEC"; "TVA";
   "TIDC"; "WAUW"; "AVA"; "SEC"; "TEPC"; "WALC"; "WACM"; "SEPA"; "GRIF"; "GWA"; "MISO";
   "DEAA"; "CPLW"; "GRID"; "WWA"; "SWPP"].

(** The loop appends one joined path per name; the file system is not
    consulted. *)
Definition list_EIA_930_files (input_dir : string) : list string :=
  map (fun i => path_join input_dir (i ++ ".xlsx")) ba_name.

(** [pd.read_excel(path, sheet_name=...)]. *)
Definition read_excel (fs : FileSystem) (path sheet_name : string) : Result Sheet :=
  match assoc path fs with
  | None => Raise (FileNotFoundError path)
  | Some wb =>
      match assoc sheet_name wb with
      | None => Raise (ValueError ("Worksheet named '" ++ sheet_name ++ "' not found"))
      | Some sh => Ok sh
      end
  end.

Definition is_time (c : Cell) : bool :=
  match c with CTime _ => true | _ => false end.

Definition is_time_or_missing (c : Cell) : bool :=
  match c with CTime _ | CNaN => true | _ => false end.

(** [series.dt]: only a datetime column has the accessor; a column read
    with any text or number in it, or with no timestamp at all, has not. *)
Definition dt (series : list Cell) : Result (list Cell) :=
  if (forallb is_time_or_missing series && existsb is_time series)%bool
  then Ok series
  else Raise (AttributeError "dt").

Inductive Directive : Type := pY | pm | pd | pH.

(** [.dt.strftime(fmt)] for the four one-directive formats in use; a
    missing timestamp stays missing. *)
Definition strftime (fmt : Directive) (c : Cell) : Cell :=
  match c with
  | CTime t =>
      CText (match fmt with
             | pY => zfill 4 (str (ts_year t))
             | pm => zfill 2 (str (ts_month t))
             | pd => zfill 2 (str (ts_day t))
             | pH => zfill 2 (str (ts_hour t))
             end)
  | _ => CNaN
  end.

(** [df[name] = df['UTC time'].dt.strftime(fmt)]. *)
Definition assign_strftime (df : Sheet) (name : string) (fmt : Directive)
  : Result Sheet :=
  utc <- getitem CNaN df "UTC time" ;;
  acc <- dt utc ;;
  Ok (setitem CNaN df name (map (strftime fmt) acc)).

Definition col_names : list string :=
  ["Year"; "Month"; "Day"; "Hour"; "DF"; "Adjusted D"; "Adjusted NG"; "Adjusted TI"].

Definition renaming : list (string * string) :=
  [("DF", "Forecast_Demand_MWh'");
   ("Adjusted D", "Adjusted_Demand_MWh");
   ("Adjusted NG", "Adjusted_Generation_MWh");
   ("Adjusted TI", "Adjusted_Interchange_MWh")].

(** A written csv file: its path and its content ([index=False],
    [header=True]: the header line, then one line per row). *)
Definition CsvFile : Type := string * Frame Cell.

Definition eia_data_subset (fs : FileSystem) (file_string output_dir : string)
  : Result CsvFile :=
  df <- read_excel fs file_string "Published Hourly Data" ;;
  df <- assign_strftime df "Year" pY ;;
  df <- assign_strftime df "Month" pm ;;
  df <- assign_strftime df "Day" pd ;;
  df <- assign_strftime df "Hour" pH ;;
  df <- getitems CNaN df col_names ;;
  let df := rename df renaming in
  let BA_name := splitext_root (basename file_string) in
  Ok (path_join output_dir (BA_name ++ "_hourly_load_data.csv"), df).

(** [Parallel(n_jobs)(delayed(f)(x) for x in xs)] on one worker: the
    tasks run in list order, the effects of the completed ones stay, and
    the first exception leaves the call; no later task is started and no
    list of results is returned.  (With more workers the exception
    leaves the call in the same way; which other tasks had completed by
    then depends on the schedule.) *)
Fixpoint Parallel {A B} (f : A -> Result B) (xs : list A)
  : list B * option PyError :=
  match xs with
  | [] => ([], None)
  | x :: rest =>
      match f x with
      | Raise e => ([], Some e)
      | Ok b => let (done, err) := Parallel f rest in (b :: done, err)
      end
  end.

(** The files written to [output_dir], and how the call ends: [None]
    when it returns, [Some e] when [e] is raised. *)
Definition process_eia_930 (fs : FileSystem) (input_dir output_dir : string)
  : list CsvFile * option PyError :=
  let list_of_files := list_EIA_930_files input_dir in
  Parallel (fun i => eia_data_subset fs i output_dir) list_of_files.

End EIA930.

(* ------------------------------------------------------------------ *)
(** ** tell/data_process_pop_interp.py                                  *)
(* ------------------------------------------------------------------ *)

Module PopInterp.

(** *** Sorting and 64-bit sums *)

Section Sorting.
Context {A : Type}.
Variable leb : A -> A -> bool.
Variable eq_dec : forall x y : A, {x = y} + {x <> y}.

Fixpoint insert (x : A) (l : list A) : list A :=
  match l with
  | [] => [x]
  | y :: rest => if leb x y then x :: l else y :: insert x rest
  end.

Definition sort (l : list A) : list A := fold_right insert [] l.

(** The distinct values in ascending order ([np.unique], the keys of
    a [groupby], the axes of a [pivot]). *)
Definition unique (l : list A) : list A := sort (nodup eq_dec l).

Fixpoint distinct (l : list A) : bool :=
  match l with
  | [] => true
  | x :: rest =>
      negb (existsb (fun y => if eq_dec x y then true else false) rest)
      && distinct rest
  end.
End Sorting.

(** An int64 value: the integer modulo 2^64 in [-2^63, 2^63). *)
Definition int64 (z : Z) : Z := (z + 2 ^ 63) mod 2 ^ 64 - 2 ^ 63.

(** The sum of an int64 column, wrapping as numpy does. *)
Definition int64_sum (l : list Z) : Z :=
  fold_left (fun acc x => int64 (acc + x)) l 0.

(** *** Files *)

(** The csv files that exist, by path: population tables have integer
    columns; in assignment tables a cell may be missing. *)
Record FileSystem : Type := mkFileSystem {
  population_files : list (string * Frame Z);
  mapping_files : list (string * Frame (option Z))
}.

Definition read_csv {C} (files : list (string * Frame C)) (path : string)
  : Result (Frame C) :=
  match assoc path files with
  | Some df => Ok df
  | None => Raise (FileNotFoundError path)
  end.

(** [glob.glob(pattern)] for a pattern without wildcard characters: the
    path itself when it exists. *)
Definition glob {C} (files : list (string * Frame C)) (pattern : string)
  : list string :=
  match assoc pattern files with
  | Some _ => [pattern]
  | None => []
  end.

(** *** County population, long form *)

(** A row of the table [fips_pop_yearly] builds; its columns are, in
    order, population, county_FIPS, year. *)
Record CountyPopulationRecord : Type := mkCountyPopulationRecord {
  population : Z;
  county_FIPS : Z;
  year : Z
}.

(** [range(a, b)]. *)
Definition range (a b : Z) : list Z :=
  map (fun i => a + Z.of_nat i) (seq 0 (Z.to_nat (b - a))).

Definition pop_column (y : Z) : string := "pop_" ++ str y.

(** One turn of the loop: select the two columns, tag the rows with the
    year, name the population column. *)
Definition pop_year (df_pop : Frame Z) (y : Z)
  : Result (list CountyPopulationRecord) :=
  let key := [pop_column y; "county_FIPS"] in
  df_pop_yr <- getitems 0 df_pop key ;;
  Ok (map (fun r => mkCountyPopulationRecord (nth 0 r 0) (nth 1 r 0) y)
          (rows df_pop_yr)).

Fixpoint pop_years (df_pop : Frame Z) (years : list Z)
  (df : list CountyPopulationRecord) : Result (list CountyPopulationRecord) :=
  match years with
  | [] => Ok df
  | y :: rest =>
      df_pop_yr <- pop_year df_pop y ;;
      pop_years df_pop rest (df ++ df_pop_yr)
  end.

Definition population_csv (pop_input_dir : string) : string :=
  pop_input_dir ++ "/county_populations_2000_to_2019.csv".

Definition fips_pop_yearly (fs : FileSystem) (pop_input_dir : string)
  (start_year end_year : Z) : Result (list CountyPopulationRecord) :=
  df_pop <- read_csv (population_files fs) (population_csv pop_input_dir) ;;
  pop_years df_pop (range start_year (end_year + 1)) [].

(** *** County to BA assignment *)

Definition col_names : list string := ["Year"; "County_FIPS"; "BA_Number"].

(** The loop over [all_files]. *)
Fixpoint read_all (files : list (string * Frame (option Z))) (names : list string)
  : Result (list (Frame (option Z))) :=
  match names with
  | [] => Ok []
  | filename :: rest =>
      df <- read_csv files filename ;;
      dfs <- read_all files rest ;;
      Ok (df :: dfs)
  end.

(** Rows of [b] under the rows of [a], on the union of the columns. *)
Definition concat2 (a b : Frame (option Z)) : Frame (option Z) :=
  let hdr := (header a ++ filter (fun n => negb (has_column a n)) (header b))%list in
  let lay (h : list string) (r : list (option Z)) :=
    map (fun n => cell None h n r) hdr in
  mkFrame hdr (map (lay (header a)) (rows a) ++ map (lay (header b)) (rows b)).

(** [pd.concat(list, axis=0, ignore_index=True)]. *)
Definition concat (list : list (Frame (option Z))) : Result (Frame (option Z)) :=
  match list with
  | [] => Raise (ValueError "No objects to concatenate")
  | df :: rest => Ok (fold_left concat2 rest df)
  end.

(** [series.fillna(0).astype(np.int64)]. *)
Definition fillna0_int64 (series : list (option Z)) : list (option Z) :=
  map (fun c => Some (match c with Some z => z | None => 0 end)) series.

(** The attributes of a Series that give its values as a sequence;
    [series.attr] for any other name of no pandas attribute raises. *)
Definition Series_values : list string := ["tolist"; "to_list"; "to_numpy"].

Definition Series_getattr (series : list (option Z)) (attr : string)
  : Result (list (option Z)) :=
  if existsb (String.eqb attr) Series_values then Ok series
  else Raise (AttributeError attr).

(** [np.unique(num).tolist()]. *)
Definition np_unique (num : list (option Z)) : list Z :=
  unique Z.leb Z.eq_dec (map (fun c => match c with Some z => z | None => 0 end) num).

(** Modelled from the spec: the BA metadata lookup (module
    [tell.metadata_eia]) is not among the sources; by the spec a BA
    metadata row gives, for a BA number, the BA short name (and
    descriptive attributes, which no code here reads). *)
Record BAMetadata : Type := mkBAMetadata {
  ba_number : Z;
  meta_BA_Short_Name : string
}.

(** The module binds [glob], [pd], [np], [os], [meta_eia] and its four
    functions.  None of these names denotes a metadata table, and none a
    function from BA numbers to one. *)
Definition global_tables : list (string * list BAMetadata) := [].

Definition global_lookups
  : list (string * (list (list Z) -> list BAMetadata)) := [].

(** Reading a global name, among those that denote a value of the type
    the use needs. *)
Definition load_global {A} (bound : list (string * A)) (name : string) : Result A :=
  match assoc name bound with
  | Some v => Ok v
  | None => Raise (NameError name)
  end.

(** The assignment table with the BA short name joined on: the
    assignment columns of each row, and the name. *)
Record MapFrame : Type := mkMapFrame {
  map_header : list string;
  map_rows : list (list (option Z) * string)
}.

(** [frame.merge(metadata, on=['ba_number'])]: an inner join, the key
    being a column of both tables. *)
Definition merge_on_ba_number (frame : Frame (option Z)) (metadata : list BAMetadata)
  : Result MapFrame :=
  keys <- getitem None frame "ba_number" ;;
  Ok (mkMapFrame (header frame)
        (flat_map
           (fun rk =>
              map (fun m => (fst rk, meta_BA_Short_Name m))
                  (filter (fun m => match snd rk with
                                    | Some k => k =? ba_number m
                                    | None => false
                                    end) metadata))
           (combine (rows frame) keys))).

(** A row of [df_map] as the last merge reads it. *)
Record CountyBAAssignment : Type := mkCountyBAAssignment {
  map_county_FIPS : option Z;
  map_year : option Z;
  map_BA_Short_Name : string
}.

Definition assignment_rows (df_map : MapFrame) : Result (list CountyBAAssignment) :=
  let numeric := mkFrame (map_header df_map) (map fst (map_rows df_map)) in
  fips <- getitem None numeric "county_FIPS" ;;
  yr <- getitem None numeric "year" ;;
  Ok (map (fun x => mkCountyBAAssignment (fst (fst x)) (snd (fst x)) (snd x))
          (combine (combine fips yr) (map snd (map_rows df_map)))).

(** A row of the merged table: the population record and the BA short
    name, missing when no assignment matched. *)
Record MergedRow : Type := mkMergedRow {
  record : CountyPopulationRecord;
  BA_Short_Name : option string
}.

Definition same_county_year (l : CountyPopulationRecord) (r : CountyBAAssignment)
  : bool :=
  match map_county_FIPS r, map_year r with
  | Some c, Some y => (c =? county_FIPS l) && (y =? year l)
  | _, _ => false
  end.

(** [pd.merge(df_pop, df_map, how='left', left_on=['county_FIPS', 'year'],
    right_on=['county_FIPS', 'year'])]: every left row, once per matching
    right row, and once with a missing name when none matches. *)
Definition merge_left (df_pop : list CountyPopulationRecord)
  (df_map : list CountyBAAssignment) : list MergedRow :=
  flat_map
    (fun l =>
       match filter (same_county_year l) df_map with
       | [] => [mkMergedRow l None]
       | matches => map (fun r => mkMergedRow l (Some (map_BA_Short_Name r))) matches
       end)
    df_pop.

Definition merge_mapping_data (fs : FileSystem) (map_input_dir pop_input_dir : string)
  (start_year end_year : Z) : Result (list MergedRow) :=
  let all_files :=
    glob (mapping_files fs) (map_input_dir ++ "state_and_county_fips_codes.csv") in
  list <- read_all (mapping_files fs) all_files ;;
  frame <- concat list ;;
  frame <- getitems None frame col_names ;;
  ba <- getitem None frame "BA_Number" ;;
  let frame := setitem None frame "BA_Number" (fillna0_int64 ba) in
  fips <- getitem None frame "County_FIPS" ;;
  let frame := setitem None frame "County_FIPS" (fillna0_int64 fips) in
  ba <- getitem None frame "BA_Number" ;;
  num <- Series_getattr ba "totuple" ;;
  let unique_num := np_unique num in
  metadata_eia <- load_global global_lookups "metadata_eia" ;;
  let metadata_df := metadata_eia [unique_num] in
  metadata <- load_global global_tables "metadata" ;;
  df_map <- merge_on_ba_number frame metadata ;;
  let df_map :=
    mkMapFrame (map (fun n => lookup_name n [("county_fips", "county_FIPS")])
                    (map_header df_map))
               (map_rows df_map) in
  df_pop <- fips_pop_yearly fs pop_input_dir start_year end_year ;;
  df_map <- assignment_rows df_map ;;
  Ok (merge_left df_pop df_map).

(** *** Population by BA and year *)

(** A row of the summed table; its columns are BA_Short_Name, year,
    population. *)
Record BAAnnualPopulation : Type := mkBAAnnualPopulation {
  name : string;
  anchor_year : Z;
  pop : Z
}.

Definition key_eq_dec (a b : string * Z) : {a = b} + {a <> b}.
Proof. decide equality; [apply Z.eq_dec | apply string_dec]. Defined.

Definition key_eqb (a b : string * Z) : bool :=
  String.eqb (fst a) (fst b) && (snd a =? snd b).

(** Keys in the order of a sorted groupby: by name, then by year. *)
Definition key_leb (a b : string * Z) : bool :=
  if String.eqb (fst a) (fst b) then snd a <=? snd b
  else String.leb (fst a) (fst b).

(** The group a row falls in; rows with a missing name are in none. *)
Definition group_key (r : MergedRow) : option (string * Z) :=
  match BA_Short_Name r with
  | Some n => Some (n, year (record r))
  | None => None
  end.

Definition in_group (k : string * Z) (r : MergedRow) : bool :=
  match group_key r with
  | Some k' => key_eqb k' k
  | None => false
  end.

Definition group_keys (df : list MergedRow) : list (string * Z) :=
  unique key_leb key_eq_dec
    (flat_map (fun r => match group_key r with Some k => [k] | None => [] end) df).

(** [df.groupby(['BA_Short_Name', 'year'])['population'].sum().reset_index()]. *)
Definition groupby_sum (df : list MergedRow) : list BAAnnualPopulation :=
  map (fun k =>
         mkBAAnnualPopulation (fst k) (snd k)
           (int64_sum (map (fun r => population (record r)) (filter (in_group k) df))))
      (group_keys df).

Definition ba_pop_sum (fs : FileSystem) (mapping_input_dir population_input_dir : string)
  (start_year end_year : Z) : Result (list BAAnnualPopulation) :=
  df_pop <- merge_mapping_data fs mapping_input_dir population_input_dir
              start_year end_year ;;
  Ok (groupby_sum df_pop).

(** *** Hourly timestamps *)

Definition is_leap (y : Z) : bool :=
  (y mod 4 =? 0) && (negb (y mod 100 =? 0) || (y mod 400 =? 0)).

Definition days_in_year (y : Z) : Z := if is_leap y then 366 else 365.

(** Days before January 1 of year [y] (proleptic Gregorian calendar). *)
Definition days_before_year (y : Z) : Z :=
  365 * (y - 1) + (y - 1) / 4 - (y - 1) / 100 + (y - 1) / 400.

Definition days_before_month (y m : Z) : Z :=
  nth (Z.to_nat (m - 1)) [0; 31; 59; 90; 120; 151; 181; 212; 243; 273; 304; 334] 0
  + (if (2 <? m) && is_leap y then 1 else 0).

(** The day number of a date, January 1 of year 1 being day 1. *)
Definition toordinal (y m d : Z) : Z :=
  days_before_year y + days_before_month y m + d.

(** A timestamp on the hour, in hours. *)
Definition Timestamp (y m d h : Z) : Z := 24 * toordinal y m d + h.

(** Days from one date to another, both included. *)
Definition days_between (y1 m1 d1 y2 m2 d2 : Z) : Z :=
  toordinal y2 m2 d2 - toordinal y1 m1 d1 + 1.

(** The timestamp of the text [f'{y}-{mm}-{dd}'], at midnight.  pandas
    timestamps reach from 1677-09-21 to 2262-04-11; outside, reading
    the text raises.  (A year of other than four digits does not make
    an ISO date; the model raises there as well.) *)
Definition to_timestamp (y m d : Z) : Result Z :=
  if (Timestamp 1677 9 22 0 <=? Timestamp y m d 0)
     && (Timestamp y m d 0 <=? Timestamp 2262 4 11 0)
  then Ok (Timestamp y m d 0)
  else Raise (OutOfBoundsDatetime
                (str y ++ "-" ++ zfill 2 (str m) ++ "-" ++ zfill 2 (str d))).

(** The hours of a range, from the first to the last included. *)
Definition hours_from_to (first final : Z) : list Z :=
  map (fun k => first + Z.of_nat k) (seq 0 (Z.to_nat (final - first + 1))).

(** [pd.date_range(start=f'{start_year}-01-01', end=f'{end_year}-12-31',
    freq='H')]: from the start, every hour not after the end. *)
Definition date_range (start_year end_year : Z) : Result (list Z) :=
  first <- to_timestamp start_year 1 1 ;;
  last <- to_timestamp end_year 12 31 ;;
  Ok (hours_from_to first last).

(** *** Year-indexed and hour-indexed tables, one column per BA *)

(** An index label: the integer year of the pivoted table, or a
    timestamp of the hourly index. *)
Inductive Label : Type :=
| YearLabel (y : Z)
| HourLabel (t : Z).

(** Label equality as the index lookup sees it: an integer is no
    timestamp. *)
Definition label_eqb (a b : Label) : bool :=
  match a, b with
  | YearLabel x, YearLabel y => x =? y
  | HourLabel x, HourLabel y => x =? y
  | _, _ => false
  end.

Fixpoint label_position (l : Label) (index : list Label) : option nat :=
  match index with
  | [] => None
  | l' :: rest =>
      if label_eqb l' l then Some O
      else option_map S (label_position l rest)
  end.

(** Values are floats in pandas; they are rationals here, and [None]
    is NaN. *)
Record Wide : Type := mkWide {
  index : list Label;
  columns : list (string * list (option Q))
}.

Definition value_of (df : list BAAnnualPopulation) (n : string) (y : Z) : option Q :=
  match find (fun r => String.eqb (name r) n && (anchor_year r =? y)) df with
  | Some r => Some (inject_Z (pop r))
  | None => None
  end.

(** [df.pivot(index='year', columns='name', values='pop')]. *)
Definition pivot (df : list BAAnnualPopulation) : Result Wide :=
  if distinct key_eq_dec (map (fun r => (name r, anchor_year r)) df) then
    let years := unique Z.leb Z.eq_dec (map anchor_year df) in
    let names := unique String.leb string_dec (map name df) in
    Ok (mkWide (map YearLabel years)
               (map (fun n => (n, map (value_of df n) years)) names))
  else Raise (ValueError "Index contains duplicate entries, cannot reshape").

(** [df.reindex(idx)]: the row of each new label, missing values where
    the old index does not have the label. *)
Definition reindex (df : Wide) (idx : list Label) : Wide :=
  mkWide idx
    (map (fun c =>
            (fst c,
             map (fun l => match label_position l (index df) with
                           | Some i => nth i (snd c) None
                           | None => None
                           end) idx))
         (columns df)).

(** The next valid value of a column and how far ahead it lies. *)
Fixpoint next_valid (l : list (option Q)) : option (nat * Q) :=
  match l with
  | [] => None
  | Some v :: _ => Some (1%nat, v)
  | None :: rest =>
      match next_valid rest with
      | Some (ahead, v) => Some (S ahead, v)
      | None => None
      end
  end.

(** Linear interpolation of one column, positions equally spaced:
    [prev] is the last valid value and how far back it lies.  Valid
    values stay; a gap between two valid values is filled on the line
    through them; a gap after the last valid value takes that value; a
    gap before the first valid value stays. *)
Fixpoint interpolate_from (prev : option (nat * Q)) (l : list (option Q))
  : list (option Q) :=
  match l with
  | [] => []
  | Some v :: rest => Some v :: interpolate_from (Some (1%nat, v)) rest
  | None :: rest =>
      (match prev with
       | None => None
       | Some (back, p) =>
           match next_valid rest with
           | None => Some p
           | Some (ahead, v) =>
               Some (p + (v - p) * (inject_Z (Z.of_nat back)
                                    / inject_Z (Z.of_nat (back + ahead))))%Q
           end
       end)
      :: interpolate_from
           (match prev with Some (back, p) => Some (S back, p) | None => None end)
           rest
  end.

(** [df.interpolate(method='linear')], column by column. *)
Definition interpolate (df : Wide) : Wide :=
  mkWide (index df)
         (map (fun c => (fst c, interpolate_from None (snd c))) (columns df)).

(** [res.to_csv(path, index=False, header=True)]: the column names,
    then one line per row with the values of the columns; the index is
    not written. *)
Definition to_csv (res : Wide) (path : string) : string * Frame (option Q) :=
  (path,
   mkFrame (map fst (columns res))
           (map (fun i => map (fun c => nth i (snd c) None) (columns res))
                (seq 0 (List.length (index res))))).

(** The body of [ba_pop_interpolate] from the table [ba_pop_sum]
    returned: the hourly table and the file written. *)
Definition ba_pop_interpolate_from (df : list BAAnnualPopulation) (output_dir : string)
  (start_year end_year : Z) : Result (Wide * (string * Frame (option Q))) :=
  df <- pivot df ;;
  idx <- date_range start_year end_year ;;
  let res := interpolate (reindex df (map HourLabel idx)) in
  Ok (res, to_csv res (path_join output_dir "hourly_population.csv")).

Definition ba_pop_interpolate (fs : FileSystem)
  (mapping_input_dir population_input_dir output_dir : string)
  (start_year end_year : Z) : Result (Wide * (string * Frame (option Q))) :=
  df <- ba_pop_sum fs mapping_input_dir population_input_dir start_year end_year ;;
  ba_pop_interpolate_from df output_dir start_year end_year.

(** The column of a BA, and its value at a label. *)
Definition series (res : Wide) (n : string) : option (list (option Q)) :=
  assoc n (columns res).

Definition value_at (res : Wide) (n : string) (l : Label) : option (option Q) :=
  match series res n, label_position l (index res) with
  | Some col, Some i => Some (nth i col None)
  | _, _ => None
  end.

End PopInterp.

(* ------------------------------------------------------------------ *)
(** ** Vocabulary of the properties                                     *)
(* ------------------------------------------------------------------ *)

Module Vocabulary.
Import PopInterp.


(** The exact sum of a list of integers. *)
Definition total (l : list Z) : Z := fold_right Z.add 0 l.

(** The assignment rows of a county in a year. *)
Definition assignments_of (c y : Z) (df_map : list CountyBAAssignment)
  : list CountyBAAssignment :=
  filter (fun r => match map_county_FIPS r, map_year r with
                   | Some c', Some y' => (c' =? c) && (y' =? y)
                   | _, _ => false
                   end) df_map.

(** A row has a group when its BA short name is not missing. *)
Definition has_group (r : MergedRow) : bool :=
  match group_key r with Some _ => true | None => false end.

(** The (name, year) pairs of an annual table. *)
Definition keys (df : list BAAnnualPopulation) : list (string * Z) :=
  map (fun r => (name r, anchor_year r)) df.

(** What the annual table says of a BA at an index label: its value in
    the year for a year label, nothing for a timestamp. *)
Definition label_value (df : list BAAnnualPopulation) (n : string) (l : Label)
  : option Q :=
  match l with
  | YearLabel y => value_of df n y
  | HourLabel _ => None
  end.


End Vocabulary.

(* ------------------------------------------------------------------ *)
(** ** Sample inputs                                                    *)
(* ------------------------------------------------------------------ *)

Module Samples.
Import EIA930.

Definition hourly_columns : list string :=
  ["UTC time"; "DF"; "D"; "Adjusted D"; "Adjusted NG"; "Adjusted TI"].

(** One published hour, 2015-07-01 05:00 UTC. *)
Definition good_sheet : Sheet :=
  mkFrame hourly_columns
    [[CTime (mkTimestamp 2015 7 1 5); CNum 10; CNum 11; CNum 12; CNum 13; CNum 14]].

(** The same with a "UTC time" cell that is no timestamp. *)
Definition bad_sheet : Sheet :=
  mkFrame hourly_columns
    [[CText "yesterday"; CNum 10; CNum 11; CNum 12; CNum 13; CNum 14]].

Definition workbook (sh : Sheet) : Workbook := [("Published Hourly Data", sh)].

(** Every listed file of the directory exists and is well formed. *)
Definition all_good (input_dir : string) : FileSystem :=
  map (fun p => (p, workbook good_sheet)) (list_EIA_930_files input_dir).

(** All 66 files exist; the one of [bad] is malformed. *)
Definition one_bad (input_dir bad : string) : FileSystem :=
  (path_join input_dir (bad ++ ".xlsx"), workbook bad_sheet) :: all_good input_dir.

Definition five_files : list string :=
  ["data/AEC.xlsx"; "data/YAD.xlsx"; "data/AZPS.xlsx"; "data/AECI.xlsx"; "data/BPAT.xlsx"].

Definition claimed_load_columns : list string :=
  ["Year"; "Month"; "Day"; "Hour"; "Forecast_Demand_MWh"; "Adjusted_Demand_MWh";
   "Adjusted_Generation_MWh"; "Adjusted_Interchange_MWh"].

End Samples.

Module Scenario.
Import PopInterp.

(** Two counties, two years. *)
Definition county_populations : Frame Z :=
  mkFrame ["county_FIPS"; "pop_2015"; "pop_2016"] [[1; 100; 200]; [2; 50; 60]].

Definition files : FileSystem :=
  mkFileSystem
    [("pop/county_populations_2000_to_2019.csv", county_populations)]
    [("maps/state_and_county_fips_codes.csv",
      mkFrame ["Year"; "County_FIPS"; "BA_Number"]
              [[Some 2015; Some 1; Some 99999]; [Some 2015; Some 2; None]])].

(** The spec's scenario: counties 1 and 2 in 2015 and 2016, both assigned
    to TESTBA, and a third county that no BA covers. *)
Definition scenario_population : list CountyPopulationRecord :=
  [mkCountyPopulationRecord 100 1 2015; mkCountyPopulationRecord 50 2 2015;
   mkCountyPopulationRecord 7 3 2015;
   mkCountyPopulationRecord 200 1 2016; mkCountyPopulationRecord 60 2 2016;
   mkCountyPopulationRecord 8 3 2016].

Definition scenario_assignment : list CountyBAAssignment :=
  [mkCountyBAAssignment (Some 1) (Some 2015) "TESTBA";
   mkCountyBAAssignment (Some 2) (Some 2015) "TESTBA";
   mkCountyBAAssignment (Some 1) (Some 2016) "TESTBA";
   mkCountyBAAssignment (Some 2) (Some 2016) "TESTBA"].

(** The spec's scenario: TESTBA with 150 in 2015 and 260 in 2016. *)
Definition annual : list BAAnnualPopulation :=
  [mkBAAnnualPopulation "TESTBA" 2015 150; mkBAAnnualPopulation "TESTBA" 2016 260].



End Scenario.

(* ------------------------------------------------------------------ *)
(** ** Vocabulary of the load-file properties                           *)
(* ------------------------------------------------------------------ *)

Module LoadVocabulary.
Import EIA930.

Definition data_columns : list string :=
  ["DF"; "Adjusted D"; "Adjusted NG"; "Adjusted TI"].

(** The "UTC time" column of a sheet. *)
Definition utc_time (sh : Sheet) : list Cell :=
  map (cell CNaN (header sh) "UTC time") (rows sh).

(** The sheet can be converted: the timestamp column is there and holds
    timestamps, and the four data columns are there. *)
Definition convertible_sheet (sh : Sheet) : bool :=
  has_column sh "UTC time"
  && (forallb is_time_or_missing (utc_time sh) && existsb is_time (utc_time sh))
  && forallb (has_column sh) data_columns.


(** The csv line of a sheet row: the timestamp taken apart, then the
    four data cells. *)
Definition load_row (hdr : list string) (r : list Cell) : list Cell :=
  [strftime pY (cell CNaN hdr "UTC time" r);
   strftime pm (cell CNaN hdr "UTC time" r);
   strftime pd (cell CNaN hdr "UTC time" r);
   strftime pH (cell CNaN hdr "UTC time" r);
   cell CNaN hdr "DF" r;
   cell CNaN hdr "Adjusted D" r;
   cell CNaN hdr "Adjusted NG" r;
   cell CNaN hdr "Adjusted TI" r].

Definition load_header : list string :=
  ["Year"; "Month"; "Day"; "Hour"; "Forecast_Demand_MWh'"; "Adjusted_Demand_MWh";
   "Adjusted_Generation_MWh"; "Adjusted_Interchange_MWh"].

(** The column a name is stored in by [df[name] = ...]. *)
Definition slot {C} (df : Frame C) (name : string) : nat :=
  match position name (header df) with
  | Some i => i
  | None => List.length (header df)
  end.

(** One of the four assignments [df[name] = df['UTC time'].dt.strftime(fmt)]
    on a frame whose timestamp column passes: the row as rewritten, and
    the frame. *)
Definition write_field (name : string) (fmt : Directive) (df : Sheet)
  (r : list Cell) : list Cell :=
  replace_nth CNaN (slot df name)
    (strftime fmt (cell CNaN (header df) "UTC time" r)) r.

Definition with_field (name : string) (fmt : Directive) (df : Sheet) : Sheet :=
  setitem CNaN df name
    (map (fun r => strftime fmt (cell CNaN (header df) "UTC time" r)) (rows df)).

(** The frame after the four assignments. *)
Definition with_time_fields (sh : Sheet) : Sheet :=
  with_field "Hour" pH (with_field "Day" pd (with_field "Month" pm
    (with_field "Year" pY sh))).

(** A file name stem as the BA short names are: not empty, no slash, no
    dot. *)
Definition plain_stem (stem : string) : bool :=
  negb (String.eqb stem "")
  && match rfind "/" stem with None => true | Some _ => false end
  && match rfind "." stem with None => true | Some _ => false end.

End LoadVocabulary.

Module LoadSamples.
Import EIA930 Samples.

(** A sheet without the forecast and the interchange columns. *)
Definition short_sheet : Sheet :=
  mkFrame ["UTC time"; "Adjusted D"; "Adjusted NG"]
    [[CTime (mkTimestamp 2015 7 1 5); CNum 12; CNum 13]].

(** A sheet without the timestamp column. *)
Definition untimed_sheet : Sheet :=
  mkFrame ["DF"; "Adjusted D"; "Adjusted NG"; "Adjusted TI"]
    [[CNum 10; CNum 12; CNum 13; CNum 14]].

Definition sample_files : FileSystem :=
  [("data/AEC.xlsx", workbook good_sheet);
   ("data/YAD.xlsx", workbook bad_sheet);
   ("data/AZPS.xlsx", workbook short_sheet);
   ("data/AECI.xlsx", workbook untimed_sheet);
   ("data/BPAT.xlsx", [("Sheet1", good_sheet)])].

End LoadSamples.

(* ------------------------------------------------------------------ *)
(** ** tell/install_quickstarter_data.py                                *)
(* ------------------------------------------------------------------ *)

Module Quickstarter.

(** A path is the list of its components, from the root. *)
Definition Path : Type := list string.

Definition path_eq_dec : forall p q : Path, {p = q} + {p <> q} :=
  list_eq_dec string_dec.

Fixpoint is_prefix (p q : Path) : bool :=
  match p, q with
  | [], _ => true
  | _ :: _, [] => false
  | a :: p', b :: q' => String.eqb a b && is_prefix p' q'
  end.

(** The non-empty prefixes of a path, the path itself last. *)
Fixpoint prefixes (p : Path) : list Path :=
  match p with
  | [] => []
  | c :: rest => [c] :: map (cons c) (prefixes rest)
  end.

(** The exceptions that leave [fetch_zenodo].  [OSError] stands for the
    errors of an extraction that meets a file where it needs a directory
    or a directory where it needs a file. *)
Inductive Exception : Type :=
| DistributionNotFound
| KeyError (msg : string)
| ConnectionError
| BadZipFile
| OSError (path : Path)
| TypeError
| FileNotFoundError (path : Path)
| NotADirectoryError (path : Path).

(** An entry of a zip archive: its path in the archive, whether it is a
    directory entry, and its bytes. *)
Record Member : Type := mkMember {
  member_path : Path;
  member_is_dir : bool;
  member_data : string
}.

(** What a URL serves: a zip archive, or anything else (an error page
    included: the status of the response is not looked at). *)
Inductive Content : Type :=
| Archive (members : list Member)
| Page (text : string).

(** The directories (the root apart, which always is one), the files and
    what has been printed. *)
Record World : Type := mkWorld {
  dirs : list Path;
  files : list (Path * string);
  stdout : list string
}.

(** What the call reads and does not change: the installed version of
    the [tell] distribution if any, what the web serves (nothing when the
    request fails), and the working directory. *)
Record Environment : Type := mkEnvironment {
  installed : option string;
  web : string -> option Content;
  cwd : Path
}.

Definition is_dir (w : World) (p : Path) : bool :=
  match p with
  | [] => true
  | _ => existsb (fun d => if path_eq_dec d p then true else false) (dirs w)
  end.

Definition read_file (w : World) (p : Path) : option string :=
  match find (fun f => if path_eq_dec (fst f) p then true else false) (files w) with
  | Some f => Some (snd f)
  | None => None
  end.

Definition is_file (w : World) (p : Path) : bool :=
  match read_file w p with Some _ => true | None => false end.

Definition print (w : World) (line : string) : World :=
  mkWorld (dirs w) (files w) (stdout w ++ [line]).

Definition add_dir (w : World) (p : Path) : World :=
  if is_dir w p then w else mkWorld (p :: dirs w) (files w) (stdout w).

Definition write_file (w : World) (p : Path) (data : string) : World :=
  mkWorld (dirs w)
          ((p, data)
           :: filter (fun f => if path_eq_dec (fst f) p then false else true) (files w))
          (stdout w).

Definition DATA_VERSION_URLS : list (string * string) :=
  [("0.0.1", "https://zenodo.org/record/6578641/files/tell_quickstarter_data.zip?download=1");
   ("0.1.0", "https://zenodo.org/record/6578641/files/tell_quickstarter_data.zip?download=1");
   ("0.1.1", "https://zenodo.org/record/6578641/files/tell_quickstarter_data.zip?download=1")].

(** Extracting one member under [target]: the directories above it are
    made when missing (the member itself too when it is a directory
    entry), then a file member is written over what was there. *)
Definition extract_member (target : Path) (w : World) (m : Member)
  : World * option Exception :=
  let targetpath := (target ++ member_path m)%list in
  let needed :=
    if member_is_dir m then prefixes targetpath
    else prefixes (removelast targetpath) in
  if existsb (is_file w) needed then (w, Some (OSError targetpath))
  else
    let w' := fold_left add_dir needed w in
    if member_is_dir m then (w', None)
    else if is_dir w' targetpath then (w', Some (OSError targetpath))
         else (write_file w' targetpath (member_data m), None).

(** [zipped.extractall(target)]: the members in archive order, up to the
    first that fails. *)
Fixpoint extractall (members : list Member) (target : Path) (w : World)
  : World * option Exception :=
  match members with
  | [] => (w, None)
  | m :: rest =>
      match extract_member target w m with
      | (w', None) => extractall rest target w'
      | failed => failed
      end
  end.

(** [shutil.rmtree(p)]. *)
Definition rmtree (p : Path) (w : World) : World * option Exception :=
  if is_dir w p then
    (mkWorld (filter (fun d => negb (is_prefix p d)) (dirs w))
             (filter (fun f => negb (is_prefix p (fst f))) (files w))
             (stdout w),
     None)
  else if is_file w p then (w, Some (NotADirectoryError p))
  else (w, Some (FileNotFoundError p)).

(** [InstallQuickstarterData(data_dir).fetch_zenodo()]; [data_dir] is
    [None] when the argument is left out. *)
Definition fetch_zenodo (env : Environment) (data_dir : option Path) (w : World)
  : World * option Exception :=
  match installed env with
  | None => (w, Some DistributionNotFound)
  | Some current_version =>
      match assoc current_version DATA_VERSION_URLS with
      | None =>
          (w, Some (KeyError ("Link to data missing for current version: "
                              ++ current_version
                              ++ ". Please contact an administrator.")))
      | Some data_link =>
          let w := print w ("Downloading the quickstarter data package for tell version "
                            ++ current_version ++ "...") in
          match web env data_link with
          | None => (w, Some ConnectionError)
          | Some (Page _) => (w, Some BadZipFile)
          | Some (Archive members) =>
              let target := match data_dir with
                            | Some d => d
                            | None => cwd env
                            end in
              match extractall members target w with
              | (w, Some e) => (w, Some e)
              | (w, None) =>
                  match data_dir with
                  | None => (w, Some TypeError)
                  | Some d =>
                      match rmtree (d ++ ["__MACOSX"])%list w with
                      | (w, Some e) => (w, Some e)
                      | (w, None) => (print w "Done!", None)
                      end
                  end
              end
          end
      end
  end.

Definition install_quickstarter_data (env : Environment) (data_dir : option Path)
  (w : World) : World * option Exception :=
  fetch_zenodo env data_dir w.

End Quickstarter.

Module QuickstarterVocabulary.
Import Quickstarter.

Definition downloading (version : string) : string :=
  "Downloading the quickstarter data package for tell version " ++ version ++ "...".

(** The directory [shutil.rmtree] is called on. *)
Definition mac_dir (d : Path) : Path := (d ++ ["__MACOSX"])%list.


(** What an extraction ends with: nothing, or an OSError. *)
Definition before_extraction_or_none (r : option Exception) : bool :=
  match r with
  | None | Some (OSError _) => true
  | _ => false
  end.

(** The exceptions raised before anything is extracted. *)
Definition before_extraction (e : Exception) : bool :=
  match e with
  | DistributionNotFound | KeyError _ | ConnectionError | BadZipFile => true
  | _ => false
  end.

(** The steps of [fetch_zenodo], one after the other. *)
Inductive Fetched (env : Environment) (data_dir : option Path) (w : World)
  : World * option Exception -> Prop :=
| not_installed :
    installed env = None ->
    Fetched env data_dir w (w, Some DistributionNotFound)
| unknown_version v :
    installed env = Some v -> assoc v DATA_VERSION_URLS = None ->
    Fetched env data_dir w
      (w, Some (KeyError ("Link to data missing for current version: " ++ v
                          ++ ". Please contact an administrator.")))
| request_failed v data_link :
    installed env = Some v -> assoc v DATA_VERSION_URLS = Some data_link ->
    web env data_link = None ->
    Fetched env data_dir w (print w (downloading v), Some ConnectionError)
| not_a_zip v data_link text :
    installed env = Some v -> assoc v DATA_VERSION_URLS = Some data_link ->
    web env data_link = Some (Page text) ->
    Fetched env data_dir w (print w (downloading v), Some BadZipFile)
| extraction_failed v data_link members w1 e :
    installed env = Some v -> assoc v DATA_VERSION_URLS = Some data_link ->
    web env data_link = Some (Archive members) ->
    extractall members (match data_dir with Some d => d | None => cwd env end)
               (print w (downloading v)) = (w1, Some e) ->
    Fetched env data_dir w (w1, Some e)
| no_data_dir v data_link members w1 :
    installed env = Some v -> assoc v DATA_VERSION_URLS = Some data_link ->
    web env data_link = Some (Archive members) ->
    data_dir = None ->
    extractall members (cwd env) (print w (downloading v)) = (w1, None) ->
    Fetched env data_dir w (w1, Some TypeError)
| rmtree_failed_after v data_link members d w1 e :
    installed env = Some v -> assoc v DATA_VERSION_URLS = Some data_link ->
    web env data_link = Some (Archive members) ->
    data_dir = Some d ->
    extractall members d (print w (downloading v)) = (w1, None) ->
    rmtree (mac_dir d) w1 = (w1, Some e) ->
    Fetched env data_dir w (w1, Some e)
| done v data_link members d w1 w2 :
    installed env = Some v -> assoc v DATA_VERSION_URLS = Some data_link ->
    web env data_link = Some (Archive members) ->
    data_dir = Some d ->
    extractall members d (print w (downloading v)) = (w1, None) ->
    rmtree (mac_dir d) w1 = (w2, None) ->
    Fetched env data_dir w (print w2 "Done!", None).

End QuickstarterVocabulary.

Module QuickstarterSamples.
Import Quickstarter.

Definition link : string :=
  "https://zenodo.org/record/6578641/files/tell_quickstarter_data.zip?download=1".

(** An archive as a Mac makes it, and one without the Mac directory. *)
Definition mac_archive : list Member :=
  [mkMember ["tell_data"] true "";
   mkMember ["tell_data"; "load.csv"] false "Year,Month";
   mkMember ["__MACOSX"] true "";
   mkMember ["__MACOSX"; "tell_data"; "._load.csv"] false "Mac"].


Definition serving (c : Content) (version : string) : Environment :=
  mkEnvironment (Some version)
                (fun url => if String.eqb url link then Some c else None)
                ["home"; "user"].

Definition empty_world : World := mkWorld [] [] [].

End QuickstarterSamples.

(* ------------------------------------------------------------------ *)
(** * Properties                                                        *)
(* ------------------------------------------------------------------ *)

(** ** Results and frames *)

Lemma bind_ok {A B} (m : Result A) (k : A -> Result B) (b : B) :
  bind m k = Ok b -> exists a, m = Ok a /\ k a = Ok b.
Proof.
  destruct m as [a | e]; simpl; intros H; [eauto | discriminate].
Qed.

Lemma getitems_header {C} (na : C) (df df' : Frame C) (names : list string) :
  getitems na df names = Ok df' -> header df' = names.
Proof.
  unfold getitems.
  destruct (filter _ names); intros H; inversion H; reflexivity.
Qed.

Lemma getitems_rows {C} (na : C) (df df' : Frame C) (names : list string) :
  getitems na df names = Ok df' ->
  rows df' = map (fun r => map (fun n => cell na (header df) n r) names) (rows df).
Proof.
  unfold getitems.
  destruct (filter _ names); intros H; inversion H; reflexivity.
Qed.

(** ** EIA 930 load files *)

Section EIA930_properties.
Import EIA930 Samples.

Lemma Parallel_all_ok {A B} (f : A -> Result B) (xs : list A) :
  (forall x, In x xs -> is_ok (f x) = true) ->
  snd (Parallel f xs) = None /\ map Ok (fst (Parallel f xs)) = map f xs.
Proof.
  induction xs as [| x rest IH]; simpl; intros Hall; [split; reflexivity |].
  assert (Hx : is_ok (f x) = true) by (apply Hall; now left).
  destruct (f x) as [b | e]; [| discriminate].
  destruct IH as [IH1 IH2]; [intros y Hy; apply Hall; now right |].
  destruct (Parallel f rest) as [done err]; simpl in *.
  split; [assumption | now rewrite IH2].
Qed.

Lemma Parallel_first_failure {A B} (f : A -> Result B)
      (pre : list A) (x : A) (post : list A) (e : PyError) :
  (forall y, In y pre -> is_ok (f y) = true) ->
  f x = Raise e ->
  snd (Parallel f (pre ++ x :: post)) = Some e /\
  map Ok (fst (Parallel f (pre ++ x :: post))) = map f pre.
Proof.
  intros Hpre Hx.
  induction pre as [| y pre IH]; simpl.
  - rewrite Hx. split; reflexivity.
  - assert (Hy : is_ok (f y) = true) by (apply Hpre; now left).
    destruct (f y) as [b | e']; [| discriminate].
    destruct IH as [IH1 IH2]; [intros z Hz; apply Hpre; now right |].
    destruct (Parallel f (pre ++ x :: post)) as [done err]; simpl in *.
    split; [assumption | now rewrite IH2].
Qed.

Lemma Parallel_returns {A B} (f : A -> Result B) (xs : list A) :
  snd (Parallel f xs) = None -> forall x, In x xs -> is_ok (f x) = true.
Proof.
  induction xs as [| y rest IH]; simpl; intros H x Hin; [contradiction |].
  destruct (f y) as [b | e] eqn:Hy; [| discriminate].
  destruct (Parallel f rest) as [done err]; simpl in *.
  destruct Hin as [<- | Hin]; [now rewrite Hy | now apply IH].
Qed.

(** A listed file that does not exist is still handed to the conversion,
    which raises: the batch does not return. *)
Lemma missing_file_raises (fs : FileSystem) (input_dir output_dir p : string) :
  In p (list_EIA_930_files input_dir) ->
  assoc p fs = None ->
  snd (process_eia_930 fs input_dir output_dir) <> None.
Proof.
  intros Hin Hnone Hret.
  pose proof (Parallel_returns _ _ Hret p Hin) as Hok.
  unfold eia_data_subset, read_excel in Hok.
  rewrite Hnone in Hok. discriminate.
Qed.

(** C10, as stated, fails for the empty directory string: the first path
    is "AEC.xlsx", not "/AEC.xlsx" (and likewise for a directory string
    that already ends in a slash). *)
Lemma C10_empty_directory_string :
  nth 0 (list_EIA_930_files "") "" = "AEC.xlsx" /\
  list_EIA_930_files "" <> map (fun name => "" ++ "/" ++ name ++ ".xlsx") ba_name /\
  list_EIA_930_files "data/" <> map (fun name => "data/" ++ "/" ++ name ++ ".xlsx") ba_name.
Proof.
  split; [reflexivity | split; intros H; vm_compute in H; discriminate H].
Qed.

(** C10, amended.  For every input directory string [list_EIA_930_files]
    returns exactly 66 paths, one per hard-coded BA short name in the
    fixed order from AEC to SWPP, each the path join of the directory and
    [name.xlsx]: the directory, a slash unless the directory is empty or
    ends in one, then [name.xlsx].  No file is looked up: with no file at
    all in the file system the 66 paths are still listed and the first is
    handed to the conversion, which raises. *)
Theorem C10_list_EIA_930_files (input_dir : string) :
  List.length (list_EIA_930_files input_dir) = 66%nat /\
  list_EIA_930_files input_dir
    = map (fun name => path_join input_dir (name ++ ".xlsx")) ba_name /\
  list_EIA_930_files input_dir
    = map (fun name =>
             if (String.eqb input_dir "" || endswith_sep input_dir)%bool
             then input_dir ++ name ++ ".xlsx"
             else input_dir ++ "/" ++ name ++ ".xlsx") ba_name /\
  hd_error (list_EIA_930_files input_dir) = Some (path_join input_dir "AEC.xlsx") /\
  last (list_EIA_930_files input_dir) "" = path_join input_dir "SWPP.xlsx" /\
  (forall output_dir,
      process_eia_930 [] input_dir output_dir
      = ([], Some (FileNotFoundError (path_join input_dir "AEC.xlsx")))).
Proof.
  repeat split; reflexivity.
Qed.

(** The header of a written load file. *)
Lemma eia_data_subset_header (fs : FileSystem) (file_string output_dir : string)
      (csv : CsvFile) :
  eia_data_subset fs file_string output_dir = Ok csv ->
  header (snd csv) = map (fun n => lookup_name n renaming) col_names.
Proof.
  unfold eia_data_subset. intros H.
  do 5 (apply bind_ok in H; destruct H as [? [_ H]]).
  apply bind_ok in H. destruct H as [df [Hsel H]].
  inversion H; subst; simpl.
  now rewrite (getitems_header _ _ _ _ Hsel).
Qed.

(** C9.  The fifth column of every written load file is named
    [Forecast_Demand_MWh'], with a trailing apostrophe, so the header is
    not the one the comment of the code and the specification give. *)
Theorem C9_load_csv_header (fs : FileSystem) (file_string output_dir : string)
        (csv : CsvFile) :
  eia_data_subset fs file_string output_dir = Ok csv ->
  header (snd csv)
  = ["Year"; "Month"; "Day"; "Hour"; "Forecast_Demand_MWh'"; "Adjusted_Demand_MWh";
     "Adjusted_Generation_MWh"; "Adjusted_Interchange_MWh"] /\
  header (snd csv) <> claimed_load_columns.
Proof.
  intros H. rewrite (eia_data_subset_header _ _ _ _ H).
  split; [reflexivity | intros E; vm_compute in E; discriminate E].
Qed.

Lemma C9_load_csv_header_AEC :
  exists csv,
    eia_data_subset (all_good "data") "data/AEC.xlsx" "out" = Ok csv /\
    fst csv = "out/AEC_hourly_load_data.csv" /\
    rows (snd csv)
    = [[CText "2015"; CText "07"; CText "01"; CText "05";
        CNum 10; CNum 12; CNum 13; CNum 14]] /\
    nth 4 (header (snd csv)) "" = "Forecast_Demand_MWh'" /\
    header (snd csv) <> claimed_load_columns.
Proof.
  eexists. split; [vm_compute; reflexivity |].
  split; [reflexivity | split; [reflexivity |]].
  pose proof (C9_load_csv_header (all_good "data") "data/AEC.xlsx" "out" _ eq_refl)
    as [Hh Hne].
  split; [reflexivity | exact Hne].
Defined.

(** C8, as stated, fails: with all 66 files present and only the first
    one malformed, no csv file is written and the call raises; and the
    same holds of a batch of five files whose first is malformed. *)
Lemma C8_first_file_malformed :
  List.length
    (filter (fun p => negb (is_ok (eia_data_subset (one_bad "data" "AEC") p "out")))
            (list_EIA_930_files "data")) = 1%nat /\
  process_eia_930 (one_bad "data" "AEC") "data" "out"
  = ([], Some (AttributeError "dt")) /\
  List.length
    (filter (fun p => negb (is_ok (eia_data_subset (one_bad "data" "AEC") p "out")))
            five_files) = 1%nat /\
  Parallel (fun i => eia_data_subset (one_bad "data" "AEC") i "out") five_files
  = ([], Some (AttributeError "dt")).
Proof.
  repeat split; vm_compute; reflexivity.
Qed.

(** C8, amended.  In [process_eia_930] the failure of one file's
    conversion leaves the batch as an exception: the call returns only
    when the conversion of every listed file succeeds, and otherwise it
    raises the exception of the first failing file, the files written
    being (on one worker) those listed before it.  No per-file report is
    made. *)
Theorem C8_failure_leaves_the_batch (fs : FileSystem) (input_dir output_dir : string) :
  (snd (process_eia_930 fs input_dir output_dir) = None <->
   forall p, In p (list_EIA_930_files input_dir) ->
             is_ok (eia_data_subset fs p output_dir) = true) /\
  (forall pre p post e,
      list_EIA_930_files input_dir = (pre ++ p :: post)%list ->
      (forall q, In q pre -> is_ok (eia_data_subset fs q output_dir) = true) ->
      eia_data_subset fs p output_dir = Raise e ->
      snd (process_eia_930 fs input_dir output_dir) = Some e /\
      map Ok (fst (process_eia_930 fs input_dir output_dir))
      = map (fun q => eia_data_subset fs q output_dir) pre).
Proof.
  unfold process_eia_930. split; [split |].
  - apply Parallel_returns.
  - intros Hall. now apply Parallel_all_ok.
  - intros pre p post e -> Hpre Hp.
    now apply Parallel_first_failure.
Qed.

Lemma C8_third_file_malformed :
  snd (process_eia_930 (one_bad "data" "AZPS") "data" "out")
  = Some (AttributeError "dt") /\
  map fst (fst (process_eia_930 (one_bad "data" "AZPS") "data" "out"))
  = ["out/AEC_hourly_load_data.csv"; "out/YAD_hourly_load_data.csv"].
Proof.
  destruct (proj2 (C8_failure_leaves_the_batch (one_bad "data" "AZPS") "data" "out")
              ["data/AEC.xlsx"; "data/YAD.xlsx"] "data/AZPS.xlsx"
              (skipn 3 (list_EIA_930_files "data")) (AttributeError "dt"))
    as [Hraise _].
  - reflexivity.
  - intros q [<- | [<- | []]]; reflexivity.
  - reflexivity.
  - split; [exact Hraise | reflexivity].
Defined.

End EIA930_properties.

(** ** County population, long form *)

Section Population_properties.
Import PopInterp Vocabulary Scenario.









Example fips_pop_yearly_sample_rows :
  fips_pop_yearly files "pop" 2015 2016
  = Ok [mkCountyPopulationRecord 100 1 2015; mkCountyPopulationRecord 50 2 2015;
        mkCountyPopulationRecord 200 1 2016; mkCountyPopulationRecord 60 2 2016].
Proof. reflexivity. Qed.

End Population_properties.

(** ** County to BA assignment *)

Section Mapping_properties.
Import PopInterp Vocabulary Scenario.

Lemma Series_getattr_totuple (series : list (option Z)) :
  Series_getattr series "totuple" = Raise (AttributeError "totuple").
Proof. reflexivity. Qed.

Lemma merge_mapping_data_never_returns (fs : FileSystem)
      (map_input_dir pop_input_dir : string) (start_year end_year : Z) :
  is_ok (merge_mapping_data fs map_input_dir pop_input_dir start_year end_year) = false.
Proof.
  unfold merge_mapping_data.
  repeat match goal with
         | |- is_ok (bind (Series_getattr _ _) _) = false => reflexivity
         | |- is_ok (bind ?m _) = false =>
             destruct m; simpl bind; [| reflexivity]
         end.
  reflexivity.
Qed.

(** Hence neither [ba_pop_sum] nor [ba_pop_interpolate] returns: the
    properties of their later stages are stated on those stages. *)
Lemma ba_pop_interpolate_never_returns (fs : FileSystem)
      (mapping_input_dir population_input_dir output_dir : string)
      (start_year end_year : Z) :
  is_ok (ba_pop_sum fs mapping_input_dir population_input_dir start_year end_year)
  = false /\
  is_ok (ba_pop_interpolate fs mapping_input_dir population_input_dir output_dir
           start_year end_year) = false.
Proof.
  pose proof (merge_mapping_data_never_returns fs mapping_input_dir
                population_input_dir start_year end_year) as H.
  unfold ba_pop_interpolate, ba_pop_sum.
  destruct (merge_mapping_data _ _ _ _ _); [discriminate | split; reflexivity].
Qed.

(** C4.  [merge_mapping_data] returns for no input at all; when the
    assignment table is there with its three columns, and whatever its BA
    numbers, the call raises AttributeError at [.totuple()], before
    any metadata is looked up (the names [metadata_eia] and [metadata]
    read next are bound nowhere either). *)
Theorem C4_merge_mapping_data_raises (fs : FileSystem)
        (map_input_dir pop_input_dir : string) (start_year end_year : Z) :
  is_ok (merge_mapping_data fs map_input_dir pop_input_dir start_year end_year) = false /\
  (forall frame,
      read_csv (mapping_files fs) (map_input_dir ++ "state_and_county_fips_codes.csv")
      = Ok frame ->
      forallb (has_column frame) col_names = true ->
      merge_mapping_data fs map_input_dir pop_input_dir start_year end_year
      = Raise (AttributeError "totuple")) /\
  load_global global_lookups "metadata_eia" = Raise (NameError "metadata_eia") /\
  load_global global_tables "metadata" = Raise (NameError "metadata").
Proof.
  split; [apply merge_mapping_data_never_returns |].
  split; [| split; reflexivity].
  intros frame Hread Hcols.
  unfold merge_mapping_data, glob.
  unfold read_csv in Hread.
  destruct (assoc _ (mapping_files fs)) as [df |] eqn:Hfile; [| discriminate].
  inversion Hread; subst df. simpl read_all. unfold read_csv. rewrite Hfile.
  simpl in Hcols. repeat rewrite andb_true_iff in Hcols.
  destruct Hcols as [Hy [Hc [Hb _]]].
  simpl. unfold getitems. simpl. rewrite Hy, Hc, Hb. reflexivity.
Qed.

Lemma C4_unknown_BA_number :
  merge_mapping_data files "maps/" "pop" 2015 2016 = Raise (AttributeError "totuple").
Proof.
  apply (proj1 (proj2 (C4_merge_mapping_data_raises files "maps/" "pop" 2015 2016))
           (mkFrame ["Year"; "County_FIPS"; "BA_Number"]
                    [[Some 2015; Some 1; Some 99999]; [Some 2015; Some 2; None]]));
    reflexivity.
Defined.

End Mapping_properties.

(** ** Population by BA and year *)

Section Aggregation_properties.
Import PopInterp Vocabulary Scenario.

Lemma int64_absorb (a b : Z) : int64 (int64 a + b) = int64 (a + b).
Proof.
  unfold int64. f_equal.
  replace ((a + 2 ^ 63) mod 2 ^ 64 - 2 ^ 63 + b + 2 ^ 63)
    with ((a + 2 ^ 63) mod 2 ^ 64 + b) by ring.
  rewrite Zplus_mod_idemp_l. f_equal. ring.
Qed.

Lemma int64_fold (l : list Z) (acc : Z) :
  fold_left (fun a x => int64 (a + x)) l (int64 acc) = int64 (acc + total l).
Proof.
  revert acc. induction l as [| x l IH]; intros acc; simpl.
  - f_equal. ring.
  - rewrite int64_absorb, IH. f_equal. ring.
Qed.

Lemma int64_sum_total (l : list Z) : int64_sum l = int64 (total l).
Proof.
  unfold int64_sum. change 0 with (int64 0) at 1. now rewrite int64_fold.
Qed.

Lemma int64_le (x : Z) : 0 <= x -> int64 x <= x.
Proof.
  intros Hx. unfold int64.
  assert (H : (x + 2 ^ 63) mod 2 ^ 64 <= x + 2 ^ 63)
    by (apply Z.mod_le; lia).
  lia.
Qed.

Lemma total_app (l1 l2 : list Z) : total (l1 ++ l2) = total l1 + total l2.
Proof. induction l1 as [| x l1 IH]; simpl; [reflexivity | rewrite IH; ring]. Qed.

Lemma total_nonneg (l : list Z) : (forall x, In x l -> 0 <= x) -> 0 <= total l.
Proof.
  induction l as [| x l IH]; simpl; intros H; [lia |].
  assert (0 <= x) by (apply H; now left).
  assert (0 <= total l) by (apply IH; intros; apply H; now right).
  lia.
Qed.

Lemma total_map_le {A} (g h : A -> Z) (l : list A) :
  (forall a, In a l -> g a <= h a) -> total (map g l) <= total (map h l).
Proof.
  induction l as [| a l IH]; simpl; intros H; [lia |].
  assert (g a <= h a) by (apply H; now left).
  assert (total (map g l) <= total (map h l)) by (apply IH; intros; apply H; now right).
  lia.
Qed.

Lemma total_filter_le {A} (f : A -> Z) (p : A -> bool) (l : list A) :
  (forall a, In a l -> 0 <= f a) ->
  total (map f (filter p l)) <= total (map f l).
Proof.
  induction l as [| a l IH]; simpl; intros H; [lia |].
  assert (0 <= f a) by (apply H; now left).
  assert (total (map f (filter p l)) <= total (map f l))
    by (apply IH; intros; apply H; now right).
  destruct (p a); simpl; lia.
Qed.

Lemma insert_perm {A} (leb : A -> A -> bool) (x : A) (l : list A) :
  Permutation (insert leb x l) (x :: l).
Proof.
  induction l as [| y l IH]; simpl; [reflexivity |].
  destruct (leb x y); [reflexivity |].
  rewrite IH. apply perm_swap.
Qed.

Lemma sort_perm {A} (leb : A -> A -> bool) (l : list A) :
  Permutation (sort leb l) l.
Proof.
  induction l as [| x l IH]; simpl; [reflexivity |].
  unfold sort in *. simpl. rewrite insert_perm. now constructor.
Qed.

Lemma unique_In {A} (leb : A -> A -> bool) (dec : forall x y : A, {x = y} + {x <> y})
      (l : list A) (x : A) :
  In x (unique leb dec l) <-> In x l.
Proof.
  unfold unique. split; intros H.
  - apply (nodup_In dec). eapply Permutation_in; [apply sort_perm | exact H].
  - eapply Permutation_in; [symmetry; apply sort_perm | now apply nodup_In].
Qed.

Lemma unique_NoDup {A} (leb : A -> A -> bool) (dec : forall x y : A, {x = y} + {x <> y})
      (l : list A) :
  NoDup (unique leb dec l).
Proof.
  unfold unique.
  eapply Permutation_NoDup; [symmetry; apply sort_perm | apply NoDup_nodup].
Qed.

Lemma key_eqb_eq (a b : string * Z) : key_eqb a b = true <-> a = b.
Proof.
  destruct a as [n1 y1], b as [n2 y2]. unfold key_eqb. simpl.
  rewrite andb_true_iff, String.eqb_eq, Z.eqb_eq.
  split; [intros [-> ->]; reflexivity | intros H; inversion H; auto].
Qed.

Lemma total_map_add {A} (g h : A -> Z) (l : list A) :
  total (map (fun a => g a + h a) l) = total (map g l) + total (map h l).
Proof. induction l as [| a l IH]; simpl; [reflexivity | rewrite IH; ring]. Qed.

Lemma total_map_zero {A} (l : list A) : total (map (fun _ => 0) l) = 0.
Proof. induction l as [| a l IH]; simpl; [reflexivity | now rewrite IH]. Qed.

(** A key of a duplicate-free list is counted once. *)
Lemma total_indicator (keys : list (string * Z)) (k0 : string * Z) (v : Z) :
  NoDup keys -> In k0 keys ->
  total (map (fun k => if key_eqb k0 k then v else 0) keys) = v.
Proof.
  induction keys as [| k keys IH]; intros Hnd Hin; [contradiction |].
  inversion Hnd as [| ? ? Hnotin Hnd']; subst. simpl.
  destruct (key_eqb k0 k) eqn:Hk.
  - apply key_eqb_eq in Hk. subst k.
    rewrite (map_ext_in _ (fun _ => 0)).
    + rewrite total_map_zero. ring.
    + intros k Hk. destruct (key_eqb k0 k) eqn:E; [| reflexivity].
      apply key_eqb_eq in E. subst k. contradiction.
  - destruct Hin as [-> | Hin].
    + assert (key_eqb k0 k0 = true) by now apply key_eqb_eq.
      congruence.
    + rewrite IH by assumption. ring.
Qed.

(** The groups partition the rows that have one. *)
Lemma group_totals (f : MergedRow -> Z) (keys : list (string * Z))
      (df : list MergedRow) :
  NoDup keys ->
  (forall r k, In r df -> group_key r = Some k -> In k keys) ->
  total (map (fun k => total (map f (filter (in_group k) df))) keys)
  = total (map f (filter has_group df)).
Proof.
  intros Hnd. induction df as [| r df IH]; intros Hkeys; simpl.
  - apply total_map_zero.
  - rewrite (map_ext _
      (fun k => (if in_group k r then f r else 0)
                + total (map f (filter (in_group k) df)))).
    2:{ intros k. destruct (in_group k r); simpl; ring. }
    rewrite total_map_add, IH by (intros r' k Hin; apply Hkeys; now right).
    unfold has_group, in_group.
    destruct (group_key r) as [k0 |] eqn:Hr; simpl.
    + rewrite total_indicator; [reflexivity | assumption |].
      apply (Hkeys r); [now left | assumption].
    + now rewrite total_map_zero.
Qed.

Lemma group_keys_complete (df : list MergedRow) (r : MergedRow) (k : string * Z) :
  In r df -> group_key r = Some k -> In k (group_keys df).
Proof.
  intros Hin Hk. unfold group_keys. apply unique_In.
  apply in_flat_map. exists r. split; [assumption |].
  rewrite Hk. now left.
Qed.

Lemma merge_left_records (df_pop : list CountyPopulationRecord)
      (df_map : list CountyBAAssignment) (r : MergedRow) :
  In r (merge_left df_pop df_map) -> In (record r) df_pop.
Proof.
  unfold merge_left. rewrite in_flat_map. intros [l [Hl Hr]].
  destruct (filter (same_county_year l) df_map) as [| m ms].
  - destruct Hr as [<- | []]. assumption.
  - apply in_map_iff in Hr. destruct Hr as [m' [<- _]]. assumption.
Qed.

(** With at most one assignment per county and year, the left merge
    keeps every population record exactly once. *)
Lemma merge_left_total (df_pop : list CountyPopulationRecord)
      (df_map : list CountyBAAssignment) :
  (forall c y, (List.length (assignments_of c y df_map) <= 1)%nat) ->
  total (map (fun r => population (record r)) (merge_left df_pop df_map))
  = total (map population df_pop).
Proof.
  intros Huniq. induction df_pop as [| l rest IH]; [reflexivity |].
  change (merge_left (l :: rest) df_map)
    with ((match assignments_of (county_FIPS l) (year l) df_map with
           | [] => [mkMergedRow l None]
           | matches =>
               map (fun r => mkMergedRow l (Some (map_BA_Short_Name r))) matches
           end) ++ merge_left rest df_map)%list.
  rewrite map_app, total_app, IH. simpl map at 2. simpl total at 3.
  specialize (Huniq (county_FIPS l) (year l)).
  destruct (assignments_of (county_FIPS l) (year l) df_map) as [| m [| m' ms]];
    simpl in *; lia.
Qed.

(** C6.  With non-negative county populations and at most one BA
    assignment row per county and year, the (BA, year) sums computed by
    the left merge and the groupby of [ba_pop_sum] total at most the sum
    of all county population records: no record is counted twice, and
    records without a BA are in no sum. *)
Theorem C6_no_double_counting (df_pop : list CountyPopulationRecord)
        (df_map : list CountyBAAssignment) :
  (forall r, In r df_pop -> 0 <= population r) ->
  (forall c y, (List.length (assignments_of c y df_map) <= 1)%nat) ->
  total (map pop (groupby_sum (merge_left df_pop df_map)))
  <= total (map population df_pop).
Proof.
  intros Hpos Huniq.
  set (df := merge_left df_pop df_map).
  assert (Hdf : forall r, In r df -> 0 <= population (record r))
    by (intros r Hr; apply Hpos; now apply merge_left_records in Hr).
  unfold groupby_sum. rewrite map_map. simpl.
  rewrite <- (merge_left_total df_pop df_map Huniq). fold df.
  transitivity (total (map (fun r => population (record r)) (filter has_group df))).
  - rewrite <- (group_totals _ (group_keys df) df).
    + apply total_map_le. intros k _.
      rewrite int64_sum_total. apply int64_le. apply total_nonneg.
      intros x Hx. apply in_map_iff in Hx. destruct Hx as [r [<- Hr]].
      apply Hdf. apply filter_In in Hr. tauto.
    + apply unique_NoDup.
    + apply group_keys_complete.
  - now apply total_filter_le.
Qed.

Lemma C6_no_double_counting_scenario :
  groupby_sum (merge_left scenario_population scenario_assignment)
  = [mkBAAnnualPopulation "TESTBA" 2015 150; mkBAAnnualPopulation "TESTBA" 2016 260] /\
  total (map population scenario_population) = 425 /\
  total (map pop (groupby_sum (merge_left scenario_population scenario_assignment)))
  <= total (map population scenario_population).
Proof.
  split; [reflexivity | split; [reflexivity |]].
  apply (C6_no_double_counting scenario_population scenario_assignment).
  - intros r Hr. simpl in Hr.
    repeat (destruct Hr as [<- | Hr]; [simpl; lia |]). contradiction.
  - intros c y. unfold assignments_of, scenario_assignment. cbn -[Z.eqb].
    destruct (Z.eqb_spec 1 c), (Z.eqb_spec 2 c), (Z.eqb_spec 2015 y),
      (Z.eqb_spec 2016 y); cbn; lia.
Defined.

End Aggregation_properties.

(** ** Hourly timestamps *)

Section Calendar_properties.
Import PopInterp Vocabulary.

Lemma div_step (d y : Z) :
  0 < d -> y / d = (y - 1) / d + (if y mod d =? 0 then 1 else 0).
Proof.
  intros Hd. destruct (Z.eqb_spec (y mod d) 0); Z.div_mod_to_equations; nia.
Qed.

Lemma days_before_year_succ (y : Z) :
  days_before_year (y + 1) = days_before_year y + days_in_year y.
Proof.
  unfold days_before_year, days_in_year, is_leap.
  replace (y + 1 - 1) with y by ring.
  rewrite (div_step 4 y), (div_step 100 y), (div_step 400 y) by lia.
  destruct (Z.eqb_spec (y mod 4) 0), (Z.eqb_spec (y mod 100) 0),
    (Z.eqb_spec (y mod 400) 0); cbn [andb orb negb]; try lia.
  all: exfalso; Z.div_mod_to_equations; lia.
Qed.

(** A year has [days_in_year] days, January 1 to December 31. *)
Lemma days_between_one_year (y : Z) :
  days_between y 1 1 y 12 31 = days_in_year y.
Proof.
  unfold days_between, toordinal, days_before_month, days_in_year.
  destruct (is_leap y); simpl; lia.
Qed.

Lemma last_day_of_year (y : Z) :
  toordinal y 12 31 = days_before_year (y + 1).
Proof.
  rewrite days_before_year_succ.
  unfold toordinal, days_before_month, days_in_year.
  destruct (is_leap y); simpl; lia.
Qed.

Lemma days_before_year_mono (a b : Z) :
  a <= b -> days_before_year a <= days_before_year b.
Proof.
  intros H. unfold days_before_year. Z.div_mod_to_equations. lia.
Qed.

Lemma timestamp_bounds :
  Timestamp 1677 9 22 0 = 24 * 612412 /\ Timestamp 2262 4 11 0 = 24 * 825914 /\
  days_before_year 1678 = 612512 /\ days_before_year 2262 = 825813.
Proof. repeat split; reflexivity. Qed.

Lemma to_timestamp_first (y : Z) :
  1678 <= y <= 2262 -> to_timestamp y 1 1 = Ok (Timestamp y 1 1 0).
Proof.
  intros Hy. unfold to_timestamp.
  destruct timestamp_bounds as [Elo [Ehi [E1678 E2262]]].
  assert (H1 : days_before_year 1678 <= days_before_year y)
    by (apply days_before_year_mono; lia).
  assert (H2 : days_before_year y <= days_before_year 2262)
    by (apply days_before_year_mono; lia).
  replace ((Timestamp 1677 9 22 0 <=? Timestamp y 1 1 0)
           && (Timestamp y 1 1 0 <=? Timestamp 2262 4 11 0)) with true;
    [reflexivity |].
  symmetry. apply andb_true_iff. rewrite !Z.leb_le, Elo, Ehi.
  rewrite E1678 in H1. rewrite E2262 in H2.
  unfold Timestamp, toordinal, days_before_month.
  change (2 <? 1) with false. cbn [andb].
  change (nth (Z.to_nat (1 - 1)) _ 0) with 0.
  lia.
Qed.

Lemma to_timestamp_last (y : Z) :
  1677 <= y <= 2261 -> to_timestamp y 12 31 = Ok (Timestamp y 12 31 0).
Proof.
  intros Hy. unfold to_timestamp.
  destruct timestamp_bounds as [Elo [Ehi [E1678 E2262]]].
  assert (H1 : days_before_year 1678 <= days_before_year (y + 1))
    by (apply days_before_year_mono; lia).
  assert (H2 : days_before_year (y + 1) <= days_before_year 2262)
    by (apply days_before_year_mono; lia).
  replace ((Timestamp 1677 9 22 0 <=? Timestamp y 12 31 0)
           && (Timestamp y 12 31 0 <=? Timestamp 2262 4 11 0)) with true;
    [reflexivity |].
  symmetry. apply andb_true_iff. rewrite !Z.leb_le, Elo, Ehi.
  rewrite E1678 in H1. rewrite E2262 in H2.
  unfold Timestamp. rewrite last_day_of_year. lia.
Qed.

Lemma first_to_last_day (s e : Z) :
  s <= e -> 1 <= days_between s 1 1 e 12 31.
Proof.
  intros H. unfold days_between. rewrite last_day_of_year.
  assert (H1 : days_before_year (s + 1) <= days_before_year (e + 1))
    by (apply days_before_year_mono; lia).
  rewrite days_before_year_succ in H1.
  unfold toordinal, days_before_month, days_in_year in *.
  change (2 <? 1) with false. cbn [andb].
  change (nth (Z.to_nat (1 - 1)) _ 0) with 0.
  destruct (is_leap s); lia.
Qed.

Lemma date_range_valid (start_year end_year : Z) :
  1678 <= start_year <= 2262 -> 1677 <= end_year <= 2261 ->
  date_range start_year end_year
  = Ok (hours_from_to (Timestamp start_year 1 1 0) (Timestamp end_year 12 31 0)).
Proof.
  intros Hs He. unfold date_range.
  now rewrite to_timestamp_first, to_timestamp_last by lia.
Qed.

Lemma hours_from_to_In (first final t : Z) :
  In t (hours_from_to first final) <-> first <= t <= final.
Proof.
  unfold hours_from_to. rewrite in_map_iff. split.
  - intros [k [<- Hk]]. apply in_seq in Hk. lia.
  - intros H. exists (Z.to_nat (t - first)). split; [lia | apply in_seq; lia].
Qed.

Lemma hours_from_to_length (first final : Z) :
  first <= final ->
  Z.of_nat (List.length (hours_from_to first final)) = final - first + 1.
Proof.
  intros H. unfold hours_from_to. rewrite length_map, length_seq. lia.
Qed.

Lemma hours_from_to_ends (first final : Z) :
  first <= final ->
  hd_error (hours_from_to first final) = Some first /\
  last (hours_from_to first final) 0 = final.
Proof.
  intros H. unfold hours_from_to.
  destruct (Z.to_nat (final - first + 1)) as [| n] eqn:En; [lia |].
  split.
  - simpl. f_equal. lia.
  - rewrite seq_S, map_app. cbn [map]. rewrite last_last. lia.
Qed.

(** The hourly index of a valid year range: it starts at January 1,
    00:00 of the first year and stops at December 31, 00:00 of the last,
    so that the last day contributes one entry instead of 24. *)
Lemma date_range_entries (start_year end_year : Z) :
  1678 <= start_year -> start_year <= end_year -> end_year <= 2261 ->
  exists idx,
    date_range start_year end_year = Ok idx /\
    Z.of_nat (List.length idx)
    = 24 * (days_between start_year 1 1 end_year 12 31 - 1) + 1 /\
    hd_error idx = Some (Timestamp start_year 1 1 0) /\
    last idx 0 = Timestamp end_year 12 31 0 /\
    ~ In (Timestamp end_year 12 31 23) idx.
Proof.
  intros Hs Hse He.
  pose proof (first_to_last_day start_year end_year Hse) as Hd.
  assert (Hle : Timestamp start_year 1 1 0 <= Timestamp end_year 12 31 0)
    by (unfold Timestamp, days_between in *; lia).
  eexists. split; [apply date_range_valid; lia |].
  rewrite hours_from_to_length by assumption.
  destruct (hours_from_to_ends _ _ Hle) as [Hhd Hlast].
  repeat split; try assumption.
  - unfold Timestamp, days_between. lia.
  - rewrite hours_from_to_In. unfold Timestamp. lia.
Qed.

(** C2.  For the range 2015..2015 the index built by [pd.date_range]
    has 8737 entries, from 2015-01-01 00:00 to 2015-12-31 00:00; the 23
    later hours of December 31 are not in it, and 24 times the 365 days
    of the range is 8760. *)
Theorem C2_hourly_index_2015 :
  (exists idx,
      date_range 2015 2015 = Ok idx /\
      Z.of_nat (List.length idx) = 8737 /\
      hd_error idx = Some (Timestamp 2015 1 1 0) /\
      last idx 0 = Timestamp 2015 12 31 0 /\
      ~ In (Timestamp 2015 12 31 23) idx) /\
  days_between 2015 1 1 2015 12 31 = 365 /\
  24 * days_between 2015 1 1 2015 12 31 = 8760.
Proof.
  split; [| split; reflexivity].
  destruct (date_range_entries 2015 2015) as [idx [Hidx [Hlen H]]]; try lia.
  exists idx. split; [assumption | split; [| assumption]].
  rewrite Hlen. reflexivity.
Qed.

End Calendar_properties.

(** ** Hourly interpolation *)

Section Interpolation_properties.
Import PopInterp Vocabulary Scenario.

Lemma assoc_map_names {V} (F : string -> V) (names : list string) (n : string) :
  assoc n (map (fun m => (m, F m)) names)
  = if existsb (String.eqb n) names then Some (F n) else None.
Proof.
  induction names as [| m names IH]; simpl; [reflexivity |].
  rewrite (String.eqb_sym n m).
  destruct (String.eqb_spec m n) as [-> | Hne]; simpl; [reflexivity | exact IH].
Qed.

Lemma value_of_some (df : list BAAnnualPopulation) (n : string) (y : Z) (q : Q) :
  value_of df n y = Some q ->
  exists r, In r df /\ name r = n /\ anchor_year r = y /\ q = inject_Z (pop r).
Proof.
  unfold value_of.
  destruct (find _ df) as [r |] eqn:Hf; [| discriminate].
  intros H. inversion H; subst. apply find_some in Hf.
  destruct Hf as [Hin Hp]. apply andb_true_iff in Hp.
  destruct Hp as [Hn Hy]. apply String.eqb_eq in Hn. apply Z.eqb_eq in Hy.
  exists r. auto.
Qed.


(** A year that no row has gives no value. *)
Lemma value_of_other_year (df : list BAAnnualPopulation) (n : string) (y : Z) :
  ~ In y (unique Z.leb Z.eq_dec (map anchor_year df)) -> value_of df n y = None.
Proof.
  intros Hy. destruct (value_of df n y) as [q |] eqn:Hv; [| reflexivity].
  apply value_of_some in Hv. destruct Hv as [r [Hin [_ [Hr _]]]].
  exfalso. apply Hy. apply unique_In. rewrite <- Hr. now apply in_map.
Qed.

(** An integer year label is no timestamp: the hourly labels find no
    row of the pivoted table. *)
Lemma hour_label_position (t : Z) (years : list Z) :
  label_position (HourLabel t) (map YearLabel years) = None.
Proof.
  induction years as [| y years IH]; simpl; [reflexivity | now rewrite IH].
Qed.

Lemma year_label_cell (df : list BAAnnualPopulation) (n : string) (years : list Z)
      (y : Z) :
  (~ In y years -> value_of df n y = None) ->
  match label_position (YearLabel y) (map YearLabel years) with
  | Some i => nth i (map (value_of df n) years) None
  | None => None
  end = value_of df n y.
Proof.
  induction years as [| y0 years IH]; intros Hout; simpl.
  - symmetry. apply Hout. auto.
  - destruct (Z.eqb_spec y0 y) as [-> | Hne]; [reflexivity |].
    rewrite <- IH by (intros Hn; apply Hout; intros [E | Hin]; auto).
    destruct (label_position (YearLabel y) (map YearLabel years)); reflexivity.
Qed.

(** Reindexing a pivoted column: a label finds the value the annual table
    has for it. *)
Lemma reindex_cell (df : list BAAnnualPopulation) (n : string) (l : Label) :
  let years := unique Z.leb Z.eq_dec (map anchor_year df) in
  match label_position l (map YearLabel years) with
  | Some i => nth i (map (value_of df n) years) None
  | None => None
  end = label_value df n l.
Proof.
  intros years. destruct l as [y | t]; simpl.
  - apply year_label_cell. apply value_of_other_year.
  - now rewrite hour_label_position.
Qed.

(** The columns of the result, from the annual table. *)
Lemma interpolated_columns (df : list BAAnnualPopulation) (w : Wide)
      (idx : list Label) :
  pivot df = Ok w ->
  columns (interpolate (reindex w idx))
  = map (fun n => (n, interpolate_from None (map (label_value df n) idx)))
        (unique String.leb string_dec (map name df)).
Proof.
  unfold pivot. destruct (distinct _ _); [| discriminate].
  intros H. inversion H; subst w; clear H.
  unfold interpolate, reindex. simpl. rewrite !map_map. simpl.
  apply map_ext. intros n. f_equal. f_equal.
  apply map_ext. intros l. apply reindex_cell.
Qed.

Lemma interpolated_index (w : Wide) (idx : list Label) :
  index (interpolate (reindex w idx)) = idx.
Proof. reflexivity. Qed.

Lemma pivot_distinct (df : list BAAnnualPopulation) :
  distinct key_eq_dec (keys df) = true -> exists w, pivot df = Ok w.
Proof.
  intros H. unfold pivot. fold (keys df). rewrite H. eauto.
Qed.

Lemma interpolate_from_missing {A} (l : list A) :
  interpolate_from None (map (fun _ => None) l) = map (fun _ => None) l.
Proof. induction l as [| a l IH]; simpl; [reflexivity | now rewrite IH]. Qed.

(** Valid values stay where they are. *)
Lemma interpolate_from_keeps (l : list (option Q)) (prev : option (nat * Q))
      (i : nat) (v : Q) :
  nth i l None = Some v -> nth i (interpolate_from prev l) None = Some v.
Proof.
  revert prev i. induction l as [| c l IH]; intros prev i H.
  - destruct i; discriminate.
  - destruct i as [| i]; simpl in H.
    + subst c. reflexivity.
    + destruct c; simpl; apply IH; exact H.
Qed.





Lemma label_position_In (l : Label) (labels : list Label) :
  In l labels -> exists i, label_position l labels = Some i.
Proof.
  induction labels as [| l' labels IH]; intros Hin; [contradiction |].
  simpl. destruct (label_eqb l' l) eqn:E; [eauto |].
  destruct Hin as [-> | Hin].
  - destruct l; simpl in E; rewrite Z.eqb_refl in E; discriminate.
  - destruct (IH Hin) as [i Hi]. rewrite Hi. simpl. eauto.
Qed.

Lemma nth_all_missing {A} (l : list A) (i : nat) :
  nth i (map (fun _ => @None Q) l) None = None.
Proof.
  revert i. induction l as [| a l IH]; intros [| i]; simpl; auto.
Qed.

(** January 1, 00:00 of a year of the range is in the hourly index. *)
Lemma anchor_in_index (start_year end_year y : Z) :
  start_year <= y <= end_year ->
  In (Timestamp y 1 1 0)
     (hours_from_to (Timestamp start_year 1 1 0) (Timestamp end_year 12 31 0)).
Proof.
  intros Hy. apply hours_from_to_In.
  assert (H1 : days_before_year start_year <= days_before_year y)
    by (apply days_before_year_mono; lia).
  assert (H2 : days_before_year (y + 1) <= days_before_year (end_year + 1))
    by (apply days_before_year_mono; lia).
  rewrite days_before_year_succ in H2.
  unfold Timestamp. rewrite last_day_of_year.
  unfold toordinal, days_before_month, days_in_year in *.
  change (2 <? 1) with false. cbn [andb].
  change (nth (Z.to_nat (1 - 1)) _ 0) with 0.
  destruct (is_leap y); lia.
Qed.

(** What the body of [ba_pop_interpolate] returns and writes for an
    annual table with one row per BA and year and a valid year range. *)
Lemma hourly_population (df : list BAAnnualPopulation) (output_dir : string)
      (start_year end_year : Z) :
  distinct key_eq_dec (keys df) = true ->
  1678 <= start_year -> start_year <= end_year -> end_year <= 2261 ->
  exists res csv idx,
    ba_pop_interpolate_from df output_dir start_year end_year = Ok (res, csv) /\
    date_range start_year end_year = Ok idx /\
    index res = map HourLabel idx /\
    columns res
    = map (fun n => (n, map (fun _ => None) idx))
          (unique String.leb string_dec (map name df)) /\
    csv = to_csv res (path_join output_dir "hourly_population.csv") /\
    (forall y, start_year <= y <= end_year -> In (Timestamp y 1 1 0) idx).
Proof.
  intros Hd Hs Hse He.
  destruct (pivot_distinct df Hd) as [w Hw].
  unfold ba_pop_interpolate_from. rewrite Hw. simpl bind.
  rewrite date_range_valid by lia. simpl bind.
  do 3 eexists. split; [reflexivity |].
  split; [reflexivity |]. split; [reflexivity |].
  split; [| split; [reflexivity | intros y Hy; now apply anchor_in_index]].
  rewrite (interpolated_columns df w _ Hw).
  apply map_ext. intros n. f_equal.
  rewrite map_map. simpl. apply interpolate_from_missing.
Qed.

(** The interpolated value at every annual anchor is missing. *)
Lemma anchors_missing (df : list BAAnnualPopulation) (output_dir : string)
      (start_year end_year : Z) :
  distinct key_eq_dec (keys df) = true ->
  1678 <= start_year -> start_year <= end_year -> end_year <= 2261 ->
  exists res csv,
    ba_pop_interpolate_from df output_dir start_year end_year = Ok (res, csv) /\
    forall r y, In r df -> start_year <= y <= end_year ->
                value_at res (name r) (HourLabel (Timestamp y 1 1 0)) = Some None.
Proof.
  intros Hd Hs Hse He.
  destruct (hourly_population df output_dir start_year end_year Hd Hs Hse He)
    as [res [csv [idx [Hrun [_ [Hidx [Hcols [_ Hanchor]]]]]]]].
  exists res, csv. split; [assumption |].
  intros r y Hr Hy. unfold value_at, series.
  rewrite Hcols, Hidx.
  rewrite (assoc_map_names (fun _ => map (fun _ => None) idx)).
  replace (existsb (String.eqb (name r)) (unique String.leb string_dec (map name df)))
    with true.
  - destruct (label_position_In (HourLabel (Timestamp y 1 1 0)) (map HourLabel idx))
      as [i Hi]; [apply in_map, Hanchor, Hy |].
    rewrite Hi. now rewrite nth_all_missing.
  - symmetry. apply existsb_exists. exists (name r).
    split; [apply unique_In; now apply in_map | apply String.eqb_refl].
Qed.

(** C1.  In the spec's scenario (TESTBA: 150 in 2015, 260 in 2016,
    range 2015..2016) the hourly table has no value at the anchors: the
    value at 2016-01-01 00:00 is missing (NaN), not 260, and so is the
    value at 2015-01-01 00:00. *)
Theorem C1_anchor_values_missing :
  exists res csv,
    ba_pop_interpolate_from annual "out" 2015 2016 = Ok (res, csv) /\
    value_of annual "TESTBA" 2016 = Some (inject_Z 260) /\
    value_at res "TESTBA" (HourLabel (Timestamp 2016 1 1 0)) = Some None /\
    value_of annual "TESTBA" 2015 = Some (inject_Z 150) /\
    value_at res "TESTBA" (HourLabel (Timestamp 2015 1 1 0)) = Some None.
Proof.
  destruct (anchors_missing annual "out" 2015 2016) as [res [csv [Hrun Hna]]];
    try lia; [reflexivity |].
  exists res, csv. split; [assumption |].
  split; [reflexivity |]. split; [| split; [reflexivity |]].
  - apply (Hna (mkBAAnnualPopulation "TESTBA" 2016 260)); [simpl; auto | lia].
  - apply (Hna (mkBAAnnualPopulation "TESTBA" 2015 150)); [simpl; auto | lia].
Qed.





End Interpolation_properties.

(** ** Paths and file names *)

Section Path_properties.
Import LoadVocabulary.

Lemma length_append (a b : string) :
  String.length (a ++ b) = (String.length a + String.length b)%nat.
Proof. induction a as [| c a IH]; simpl; [reflexivity | now rewrite IH]. Qed.

Lemma append_assoc (a b c : string) : ((a ++ b) ++ c = a ++ (b ++ c))%string.
Proof. induction a as [| x a IH]; simpl; [reflexivity | now rewrite IH]. Qed.

Lemma rfind_append (c : ascii) (a b : string) :
  rfind c (a ++ b)
  = match rfind c b with
    | Some i => Some (String.length a + i)%nat
    | None => rfind c a
    end.
Proof.
  induction a as [| x a IH]; simpl.
  - destruct (rfind c b); reflexivity.
  - rewrite IH. destruct (rfind c b); reflexivity.
Qed.

Lemma substring_whole (s : string) : substring 0 (String.length s) s = s.
Proof. induction s as [| c s IH]; simpl; [reflexivity | now rewrite IH]. Qed.

Lemma substring_append_head (a b : string) :
  substring 0 (String.length a) (a ++ b) = a.
Proof.
  induction a as [| c a IH]; simpl; [destruct b; reflexivity | now rewrite IH].
Qed.

Lemma substring_append_tail (a b : string) :
  substring (String.length a) (String.length b) (a ++ b) = b.
Proof.
  induction a as [| c a IH]; simpl; [apply substring_whole | exact IH].
Qed.

Lemma rfind_none_head (c : ascii) (a : ascii) (s : string) :
  rfind c (String a s) = None -> a <> c /\ rfind c s = None.
Proof.
  simpl. destruct (rfind c s); [discriminate |].
  destruct (Ascii.eqb_spec a c); [discriminate | auto].
Qed.

(** The last component of a joined path is the file name joined on. *)
Lemma basename_path_join (dir f : string) :
  rfind "/" f = None -> basename (path_join dir f) = f.
Proof.
  intros Hf. unfold path_join.
  assert (Hstart : startswith_sep f = false).
  { destruct f as [| a f]; [reflexivity |].
    apply rfind_none_head in Hf. destruct Hf as [Ha _]. simpl.
    now apply Ascii.eqb_neq. }
  rewrite Hstart. unfold basename.
  destruct (String.eqb_spec dir "") as [-> | Hdir]; simpl orb.
  - simpl. now rewrite Hf.
  - destruct (endswith_sep dir) eqn:Hend.
    + rewrite rfind_append, Hf. unfold endswith_sep in Hend.
      destruct (rfind "/" dir) as [i |]; [| discriminate].
      apply Nat.eqb_eq in Hend. rewrite Hend, length_append.
      replace (String.length dir + String.length f - String.length dir)%nat
        with (String.length f) by lia.
      apply substring_append_tail.
    + rewrite rfind_append. simpl rfind. rewrite Hf. simpl.
      rewrite length_append. simpl String.length.
      replace (String.length dir + S (String.length f)
               - S (String.length dir + 0))%nat
        with (String.length f) by lia.
      replace (S (String.length dir + 0)) with (String.length (dir ++ "/"))
        by (rewrite length_append; simpl; lia).
      change (dir ++ String "/" f)%string with (dir ++ ("/" ++ f))%string.
      rewrite <- append_assoc. apply substring_append_tail.
Qed.

(** Taking the extension off a plain stem with an extension gives the
    stem. *)
Lemma splitext_root_stem (stem : string) :
  plain_stem stem = true -> splitext_root (stem ++ ".xlsx") = stem.
Proof.
  unfold plain_stem. rewrite !andb_true_iff. intros [[Hne Hsl] Hdot].
  destruct (rfind "/" stem) eqn:Es; [discriminate |].
  destruct (rfind "." stem) eqn:Ed; [discriminate |].
  unfold splitext_root. rewrite !rfind_append, Es, Ed. simpl rfind.
  cbn match. simpl Nat.leb.
  rewrite Nat.add_0_r, Nat.sub_0_r, substring_append_head.
  destruct stem as [| a stem]; [discriminate |].
  apply rfind_none_head in Ed. destruct Ed as [Ha _].
  simpl all_chars. apply Ascii.eqb_neq in Ha. now rewrite Ha.
Qed.

End Path_properties.

(** ** Columns of a frame *)

Section Frame_properties.
Import LoadVocabulary.
Context {C : Type}.
Variable na : C.

Lemma position_bound (name : string) (names : list string) (i : nat) :
  position name names = Some i -> (i < List.length names)%nat.
Proof.
  revert i. induction names as [| n names IH]; intros i; simpl; [discriminate |].
  destruct (String.eqb n name).
  - intros H. inversion H. lia.
  - destruct (position name names) as [j |]; simpl; [| discriminate].
    intros H. inversion H. specialize (IH j eq_refl). lia.
Qed.

Lemma position_same_slot (a b : string) (names : list string) (i : nat) :
  position a names = Some i -> position b names = Some i -> a = b.
Proof.
  revert i. induction names as [| n names IH]; intros i; simpl; [discriminate |].
  destruct (String.eqb_spec n a) as [Ea | Ha], (String.eqb_spec n b) as [Eb | Hb].
  - congruence.
  - destruct (position b names); simpl; intros H1 H2; inversion H1; subst;
      discriminate.
  - destruct (position a names); simpl; intros H1 H2; inversion H2; subst;
      discriminate.
  - destruct (position a names) as [ia |], (position b names) as [ib |]; simpl;
      try discriminate.
    intros H1 H2. inversion H1; inversion H2; subst.
    apply (IH ib); congruence.
Qed.

Lemma position_appended (m n : string) (names : list string) :
  position m (names ++ [n])
  = match position m names with
    | Some j => Some j
    | None => if String.eqb n m then Some (List.length names) else None
    end.
Proof.
  induction names as [| x names IH]; simpl.
  - destruct (String.eqb n m); reflexivity.
  - destruct (String.eqb x m); [reflexivity |].
    rewrite IH. destruct (position m names); simpl; [reflexivity |].
    destruct (String.eqb n m); reflexivity.
Qed.

Lemma nth_replace_nth (i j : nat) (v : C) (row : list C) :
  nth j (replace_nth na i v row) na = if Nat.eqb i j then v else nth j row na.
Proof.
  revert j row. induction i as [| i IH]; intros j row.
  - destruct row, j as [| j]; simpl; try reflexivity. destruct j; reflexivity.
  - destruct row as [| x row], j as [| j]; simpl; try reflexivity.
    + rewrite IH. destruct (Nat.eqb i j); [reflexivity | now destruct j].
    + apply IH.
Qed.

Lemma combine_with_map {A B} (g : A -> B) (l : list A) :
  combine l (map g l) = map (fun a => (a, g a)) l.
Proof. induction l as [| a l IH]; simpl; [reflexivity | now rewrite IH]. Qed.

(** Assigning a column computed row by row rewrites each row in the slot
    of the name. *)
Lemma setitem_rows (df : Frame C) (name : string) (g : list C -> C) :
  rows (setitem na df name (map g (rows df)))
  = map (fun r => replace_nth na (slot df name) (g r) r) (rows df).
Proof.
  unfold setitem, slot.
  destruct (position name (header df)); simpl;
    now rewrite combine_with_map, map_map.
Qed.

(** After the assignment the name reads the new value and every other
    name reads what it read before. *)
Lemma cell_setitem (df : Frame C) (name m : string) (vs : list C) (v : C)
      (r : list C) :
  cell na (header (setitem na df name vs)) m (replace_nth na (slot df name) v r)
  = if String.eqb name m then v else cell na (header df) m r.
Proof.
  unfold setitem, slot, cell.
  destruct (position name (header df)) as [i |] eqn:Hn; simpl.
  - destruct (String.eqb_spec name m) as [<- | Hne].
    + rewrite Hn, nth_replace_nth. now rewrite Nat.eqb_refl.
    + destruct (position m (header df)) as [j |] eqn:Hm; [| reflexivity].
      rewrite nth_replace_nth.
      destruct (Nat.eqb_spec i j) as [-> | Hij]; [| reflexivity].
      exfalso. apply Hne. eapply position_same_slot; eassumption.
  - rewrite position_appended.
    destruct (String.eqb_spec name m) as [<- | Hne].
    + rewrite Hn, nth_replace_nth. now rewrite Nat.eqb_refl.
    + destruct (position m (header df)) as [j |] eqn:Hm; [| reflexivity].
      rewrite nth_replace_nth.
      apply position_bound in Hm.
      destruct (Nat.eqb_spec (List.length (header df)) j); [lia | reflexivity].
Qed.

Lemma has_column_setitem (df : Frame C) (name m : string) (vs : list C) :
  has_column (setitem na df name vs) m = (has_column df m || String.eqb name m)%bool.
Proof.
  unfold has_column, setitem.
  destruct (position name (header df)) as [i |] eqn:Hn; simpl.
  - destruct (position m (header df)) eqn:Hm; [reflexivity |].
    destruct (String.eqb_spec name m) as [<- | Hne]; [congruence | reflexivity].
  - rewrite position_appended.
    destruct (position m (header df)); [reflexivity |].
    destruct (String.eqb name m); reflexivity.
Qed.

Lemma getitem_cells (df : Frame C) (name : string) :
  has_column df name = true ->
  getitem na df name = Ok (map (cell na (header df) name) (rows df)).
Proof.
  unfold has_column, getitem, cell.
  destruct (position name (header df)); [reflexivity | discriminate].
Qed.

Lemma getitem_absent (df : Frame C) (name : string) :
  has_column df name = false -> getitem na df name = Raise (KeyError [name]).
Proof.
  unfold has_column, getitem.
  destruct (position name (header df)); [discriminate | reflexivity].
Qed.

Lemma getitems_all (df : Frame C) (names : list string) :
  forallb (has_column df) names = true ->
  getitems na df names
  = Ok (mkFrame names
          (map (fun r => map (fun n => cell na (header df) n r) names) (rows df))).
Proof.
  intros H. unfold getitems.
  replace (filter (fun n => negb (has_column df n)) names) with (@nil string);
    [reflexivity |].
  symmetry. induction names as [| n names IH]; [reflexivity |].
  simpl in *. apply andb_true_iff in H. destruct H as [Hn H].
  rewrite Hn. simpl. now apply IH.
Qed.

Lemma getitems_missing (df : Frame C) (names : list string) :
  forallb (has_column df) names = false ->
  getitems na df names
  = Raise (KeyError (filter (fun n => negb (has_column df n)) names)).
Proof.
  intros H. unfold getitems.
  destruct (filter (fun n => negb (has_column df n)) names) eqn:E; [| reflexivity].
  exfalso. rewrite <- not_true_iff_false in H. apply H.
  apply forallb_forall. intros n Hn.
  destruct (has_column df n) eqn:Hc; [reflexivity |].
  assert (Hin : In n (filter (fun n => negb (has_column df n)) names))
    by (apply filter_In; split; [assumption | now rewrite Hc]).
  rewrite E in Hin. contradiction.
Qed.

End Frame_properties.

(** ** Conversion of one load file *)

Section Conversion_properties.
Import EIA930 LoadVocabulary Samples LoadSamples.

Lemma with_field_rows (name : string) (fmt : Directive) (df : Sheet) :
  rows (with_field name fmt df) = map (write_field name fmt df) (rows df).
Proof. apply setitem_rows. Qed.

Lemma with_field_cell (name : string) (fmt : Directive) (df : Sheet)
      (m : string) (r : list Cell) :
  cell CNaN (header (with_field name fmt df)) m (write_field name fmt df r)
  = if String.eqb name m
    then strftime fmt (cell CNaN (header df) "UTC time" r)
    else cell CNaN (header df) m r.
Proof. apply cell_setitem. Qed.

Lemma with_field_has_column (name : string) (fmt : Directive) (df : Sheet)
      (m : string) :
  has_column (with_field name fmt df) m
  = (has_column df m || String.eqb name m)%bool.
Proof. apply has_column_setitem. Qed.

Lemma with_field_utc_time (name : string) (fmt : Directive) (df : Sheet) :
  String.eqb name "UTC time" = false ->
  utc_time (with_field name fmt df) = utc_time df.
Proof.
  intros Hne. unfold utc_time. rewrite with_field_rows, map_map.
  apply map_ext. intros r. now rewrite with_field_cell, Hne.
Qed.

Lemma assign_strftime_ok (df : Sheet) (name : string) (fmt : Directive) :
  has_column df "UTC time" = true ->
  (forallb is_time_or_missing (utc_time df) && existsb is_time (utc_time df))%bool
  = true ->
  assign_strftime df name fmt = Ok (with_field name fmt df).
Proof.
  intros Hc Hdt. unfold assign_strftime.
  rewrite (getitem_cells CNaN df "UTC time" Hc). simpl bind.
  unfold dt. fold (utc_time df). rewrite Hdt. simpl bind.
  unfold with_field, utc_time. now rewrite map_map.
Qed.

Lemma assign_strftime_fails (df : Sheet) (name : string) (fmt : Directive) :
  (has_column df "UTC time"
   && (forallb is_time_or_missing (utc_time df) && existsb is_time (utc_time df)))%bool
  = false ->
  is_ok (assign_strftime df name fmt) = false.
Proof.
  intros H. unfold assign_strftime.
  destruct (has_column df "UTC time") eqn:Hc; simpl in H.
  - rewrite (getitem_cells CNaN df "UTC time" Hc). simpl bind.
    unfold dt. fold (utc_time df). now rewrite H.
  - now rewrite (getitem_absent CNaN df "UTC time" Hc).
Qed.

Lemma with_time_fields_rows (sh : Sheet) :
  map (fun r => map (fun n => cell CNaN (header (with_time_fields sh)) n r) col_names)
      (rows (with_time_fields sh))
  = map (load_row (header sh)) (rows sh).
Proof.
  unfold with_time_fields. rewrite !with_field_rows, !map_map.
  apply map_ext. intros r. unfold col_names, load_row. cbn [map].
  rewrite !with_field_cell. reflexivity.
Qed.

Lemma with_time_fields_columns (sh : Sheet) :
  forallb (has_column (with_time_fields sh)) col_names
  = forallb (has_column sh) data_columns.
Proof.
  unfold with_time_fields, col_names, data_columns. cbn [forallb].
  rewrite !with_field_has_column. cbn [String.eqb Ascii.eqb Bool.eqb].
  rewrite !orb_true_r, !orb_false_r. reflexivity.
Qed.

(** How a sheet that can be converted is converted. *)
Lemma conversion_of_sheet (fs : FileSystem) (file_string output_dir : string)
      (sh : Sheet) :
  read_excel fs file_string "Published Hourly Data" = Ok sh ->
  convertible_sheet sh = true ->
  eia_data_subset fs file_string output_dir
  = Ok (path_join output_dir
          (splitext_root (basename file_string) ++ "_hourly_load_data.csv"),
        mkFrame load_header (map (load_row (header sh)) (rows sh))).
Proof.
  intros Hread Hconv. unfold convertible_sheet in Hconv.
  apply andb_true_iff in Hconv. destruct Hconv as [Hconv Hdata].
  apply andb_true_iff in Hconv. destruct Hconv as [Hutc Hdt].
  unfold eia_data_subset. rewrite Hread. simpl bind.
  rewrite (assign_strftime_ok sh "Year" pY Hutc Hdt). simpl bind.
  rewrite (assign_strftime_ok (with_field "Year" pY sh) "Month" pm).
  2:{ now rewrite with_field_has_column, Hutc. }
  2:{ now rewrite with_field_utc_time. }
  simpl bind.
  rewrite (assign_strftime_ok (with_field "Month" pm (with_field "Year" pY sh))
             "Day" pd).
  2:{ now rewrite !with_field_has_column, Hutc. }
  2:{ now rewrite !with_field_utc_time. }
  simpl bind.
  rewrite (assign_strftime_ok
             (with_field "Day" pd (with_field "Month" pm (with_field "Year" pY sh)))
             "Hour" pH).
  2:{ now rewrite !with_field_has_column, Hutc. }
  2:{ now rewrite !with_field_utc_time. }
  simpl bind. fold (with_time_fields sh).
  rewrite (getitems_all CNaN (with_time_fields sh) col_names)
    by (now rewrite with_time_fields_columns).
  simpl bind. unfold rename. simpl header. simpl rows.
  pose proof (with_time_fields_rows sh) as Hrows. cbn [map col_names] in Hrows.
  now rewrite Hrows.
Qed.

Lemma conversion_fails (fs : FileSystem) (file_string output_dir : string)
      (sh : Sheet) :
  read_excel fs file_string "Published Hourly Data" = Ok sh ->
  convertible_sheet sh = false ->
  is_ok (eia_data_subset fs file_string output_dir) = false.
Proof.
  intros Hread Hconv. unfold eia_data_subset. rewrite Hread. simpl bind.
  destruct (has_column sh "UTC time"
            && (forallb is_time_or_missing (utc_time sh)
                && existsb is_time (utc_time sh)))%bool eqn:Htime.
  - apply andb_true_iff in Htime. destruct Htime as [Hutc Hdt].
    unfold convertible_sheet in Hconv. rewrite Hutc, Hdt in Hconv.
    simpl in Hconv.
    rewrite (assign_strftime_ok sh "Year" pY Hutc Hdt). simpl bind.
    rewrite (assign_strftime_ok (with_field "Year" pY sh) "Month" pm).
    2:{ now rewrite with_field_has_column, Hutc. }
    2:{ now rewrite with_field_utc_time. }
    simpl bind.
    rewrite (assign_strftime_ok (with_field "Month" pm (with_field "Year" pY sh))
               "Day" pd).
    2:{ now rewrite !with_field_has_column, Hutc. }
    2:{ now rewrite !with_field_utc_time. }
    simpl bind.
    rewrite (assign_strftime_ok
               (with_field "Day" pd (with_field "Month" pm (with_field "Year" pY sh)))
               "Hour" pH).
    2:{ now rewrite !with_field_has_column, Hutc. }
    2:{ now rewrite !with_field_utc_time. }
    simpl bind. fold (with_time_fields sh).
    rewrite (getitems_missing CNaN (with_time_fields sh) col_names)
      by (now rewrite with_time_fields_columns).
    reflexivity.
  - pose proof (assign_strftime_fails sh "Year" pY Htime) as H.
    destruct (assign_strftime sh "Year" pY); [discriminate | reflexivity].
Qed.




(** X2.  A converted file has one line per row of the sheet, in the same
    order: the year, month, day and hour of the row's timestamp (four,
    two, two and two digits; blank for a blank timestamp), then the row's
    DF, Adjusted D, Adjusted NG and Adjusted TI cells unchanged.  All
    other columns of the sheet are left out. *)
Theorem conversion_content (fs : FileSystem) (file_string output_dir : string)
        (csv : CsvFile) :
  eia_data_subset fs file_string output_dir = Ok csv ->
  exists sh,
    read_excel fs file_string "Published Hourly Data" = Ok sh /\
    rows (snd csv) = map (load_row (header sh)) (rows sh) /\
    List.length (rows (snd csv)) = List.length (rows sh).
Proof.
  intros H.
  destruct (read_excel fs file_string "Published Hourly Data") as [sh | e] eqn:Hread.
  - exists sh. split; [reflexivity |].
    destruct (convertible_sheet sh) eqn:Hconv.
    + rewrite (conversion_of_sheet fs file_string output_dir sh Hread Hconv) in H.
      inversion H; subst csv. simpl. split; [reflexivity | now rewrite length_map].
    + pose proof (conversion_fails fs file_string output_dir sh Hread Hconv) as Hf.
      rewrite H in Hf. discriminate.
  - unfold eia_data_subset in H. rewrite Hread in H. discriminate.
Qed.

Lemma conversion_content_AEC :
  exists csv,
    eia_data_subset sample_files "data/AEC.xlsx" "out" = Ok csv /\
    rows (snd csv)
    = [[CText "2015"; CText "07"; CText "01"; CText "05";
        CNum 10; CNum 12; CNum 13; CNum 14]].
Proof.
  eexists. split; [reflexivity |].
  destruct (conversion_content sample_files "data/AEC.xlsx" "out" _ eq_refl)
    as [sh [Hread [Hrows _]]].
  inversion Hread; subst sh. exact Hrows.
Defined.

(** X3.  Which exception a file that cannot be converted raises: a path
    that is no file, FileNotFoundError; a workbook without the sheet,
    ValueError; a sheet without "UTC time", KeyError for that column; a
    "UTC time" column that does not hold timestamps, AttributeError at
    [.dt]; otherwise, a missing data column, KeyError listing the
    missing ones among DF, Adjusted D, Adjusted NG, Adjusted TI in that
    order. *)
Theorem conversion_errors (fs : FileSystem) (file_string output_dir : string) :
  (assoc file_string fs = None ->
   eia_data_subset fs file_string output_dir
   = Raise (FileNotFoundError file_string)) /\
  (forall wb, assoc file_string fs = Some wb ->
              assoc "Published Hourly Data" wb = None ->
              eia_data_subset fs file_string output_dir
              = Raise (ValueError "Worksheet named 'Published Hourly Data' not found")) /\
  (forall sh, read_excel fs file_string "Published Hourly Data" = Ok sh ->
              has_column sh "UTC time" = false ->
              eia_data_subset fs file_string output_dir
              = Raise (KeyError ["UTC time"])) /\
  (forall sh, read_excel fs file_string "Published Hourly Data" = Ok sh ->
              has_column sh "UTC time" = true ->
              (forallb is_time_or_missing (utc_time sh)
               && existsb is_time (utc_time sh))%bool = false ->
              eia_data_subset fs file_string output_dir
              = Raise (AttributeError "dt")) /\
  (forall sh, read_excel fs file_string "Published Hourly Data" = Ok sh ->
              has_column sh "UTC time" = true ->
              (forallb is_time_or_missing (utc_time sh)
               && existsb is_time (utc_time sh))%bool = true ->
              forallb (has_column sh) data_columns = false ->
              eia_data_subset fs file_string output_dir
              = Raise (KeyError (filter (fun n => negb (has_column sh n))
                                        data_columns))).
Proof.
  repeat split.
  - intros H. unfold eia_data_subset, read_excel. now rewrite H.
  - intros wb H1 H2. unfold eia_data_subset, read_excel. now rewrite H1, H2.
  - intros sh Hread Hutc. unfold eia_data_subset. rewrite Hread. simpl bind.
    unfold assign_strftime. now rewrite (getitem_absent CNaN sh "UTC time" Hutc).
  - intros sh Hread Hutc Hdt. unfold eia_data_subset. rewrite Hread. simpl bind.
    unfold assign_strftime.
    rewrite (getitem_cells CNaN sh "UTC time" Hutc). simpl bind.
    unfold dt. fold (utc_time sh). now rewrite Hdt.
  - intros sh Hread Hutc Hdt Hdata.
    unfold eia_data_subset. rewrite Hread. simpl bind.
    rewrite (assign_strftime_ok sh "Year" pY Hutc Hdt). simpl bind.
    rewrite (assign_strftime_ok (with_field "Year" pY sh) "Month" pm).
    2:{ now rewrite with_field_has_column, Hutc. }
    2:{ now rewrite with_field_utc_time. }
    simpl bind.
    rewrite (assign_strftime_ok (with_field "Month" pm (with_field "Year" pY sh))
               "Day" pd).
    2:{ now rewrite !with_field_has_column, Hutc. }
    2:{ now rewrite !with_field_utc_time. }
    simpl bind.
    rewrite (assign_strftime_ok
               (with_field "Day" pd (with_field "Month" pm (with_field "Year" pY sh)))
               "Hour" pH).
    2:{ now rewrite !with_field_has_column, Hutc. }
    2:{ now rewrite !with_field_utc_time. }
    simpl bind. fold (with_time_fields sh).
    rewrite (getitems_missing CNaN (with_time_fields sh) col_names)
      by (now rewrite with_time_fields_columns).
    simpl bind. do 2 f_equal.
    unfold with_time_fields, col_names, data_columns. cbn [filter].
    rewrite !with_field_has_column. cbn [String.eqb Ascii.eqb Bool.eqb].
    rewrite !orb_true_r, !orb_false_r. reflexivity.
Qed.

Lemma conversion_errors_samples :
  eia_data_subset sample_files "data/PJM.xlsx" "out"
  = Raise (FileNotFoundError "data/PJM.xlsx") /\
  eia_data_subset sample_files "data/BPAT.xlsx" "out"
  = Raise (ValueError "Worksheet named 'Published Hourly Data' not found") /\
  eia_data_subset sample_files "data/AECI.xlsx" "out" = Raise (KeyError ["UTC time"]) /\
  eia_data_subset sample_files "data/YAD.xlsx" "out" = Raise (AttributeError "dt") /\
  eia_data_subset sample_files "data/AZPS.xlsx" "out"
  = Raise (KeyError ["DF"; "Adjusted TI"]).
Proof.
  split; [| split; [| split; [| split]]].
  - apply (proj1 (conversion_errors sample_files "data/PJM.xlsx" "out")).
    reflexivity.
  - apply (proj1 (proj2 (conversion_errors sample_files "data/BPAT.xlsx" "out"))
             [("Sheet1", good_sheet)]); reflexivity.
  - apply (proj1 (proj2 (proj2 (conversion_errors sample_files "data/AECI.xlsx" "out")))
             untimed_sheet); reflexivity.
  - apply (proj1 (proj2 (proj2 (proj2
             (conversion_errors sample_files "data/YAD.xlsx" "out")))) bad_sheet);
      reflexivity.
  - apply (proj2 (proj2 (proj2 (proj2
             (conversion_errors sample_files "data/AZPS.xlsx" "out")))) short_sheet);
      reflexivity.
Defined.

Lemma conversion_path (fs : FileSystem) (file_string output_dir : string)
      (csv : CsvFile) :
  eia_data_subset fs file_string output_dir = Ok csv ->
  fst csv = path_join output_dir
              (splitext_root (basename file_string) ++ "_hourly_load_data.csv").
Proof.
  unfold eia_data_subset. intros H.
  do 6 (apply bind_ok in H; destruct H as [? [_ H]]).
  now inversion H.
Qed.

Lemma ba_names_plain : forallb plain_stem ba_name = true.
Proof. reflexivity. Qed.

Lemma listed_file_stem (input_dir name : string) :
  In name ba_name ->
  splitext_root (basename (path_join input_dir (name ++ ".xlsx"))) = name.
Proof.
  intros Hin.
  pose proof (proj1 (forallb_forall _ _) ba_names_plain name Hin) as Hplain.
  rewrite basename_path_join; [now apply splitext_root_stem |].
  unfold plain_stem in Hplain. rewrite !andb_true_iff in Hplain.
  destruct Hplain as [[_ Hsl] _].
  rewrite rfind_append. simpl rfind at 1.
  destruct (rfind "/" name); [discriminate | reflexivity].
Qed.

(** X4.  Whatever the input and output directories, the csv file of a
    listed BA file [{input_dir}/{name}.xlsx] is written as
    [{name}_hourly_load_data.csv] in the output directory: the directory
    part and the extension of the input path do not get into the name. *)
Theorem listed_file_output_name (fs : FileSystem) (input_dir output_dir name : string)
        (csv : CsvFile) :
  In name ba_name ->
  eia_data_subset fs (path_join input_dir (name ++ ".xlsx")) output_dir = Ok csv ->
  fst csv = path_join output_dir (name ++ "_hourly_load_data.csv").
Proof.
  intros Hin H. rewrite (conversion_path _ _ _ _ H).
  now rewrite listed_file_stem.
Qed.

Lemma listed_file_output_name_PJM :
  exists csv,
    eia_data_subset (all_good "raw/eia/") "raw/eia/PJM.xlsx" "out/" = Ok csv /\
    fst csv = "out/PJM_hourly_load_data.csv".
Proof.
  eexists. split; [vm_compute; reflexivity |].
  apply (listed_file_output_name (all_good "raw/eia/") "raw/eia/" "out/" "PJM").
  - unfold ba_name. simpl. tauto.
  - vm_compute; reflexivity.
Defined.






End Conversion_properties.

(** ** More on the population tables *)

Section Population_more.
Import PopInterp Vocabulary Scenario.

Lemma range_empty (a b : Z) : b <= a -> range a b = [].
Proof.
  intros H. unfold range. now replace (Z.to_nat (b - a)) with O by lia.
Qed.

Lemma range_first (a b : Z) : a < b -> range a b = a :: range (a + 1) b.
Proof.
  intros H. unfold range.
  replace (Z.to_nat (b - a)) with (S (Z.to_nat (b - (a + 1)))) by lia.
  simpl. f_equal; [lia |].
  rewrite <- seq_shift, map_map. apply map_ext. intros i. lia.
Qed.

(** X7.  Edges of [fips_pop_yearly]: without the population file the call
    raises FileNotFoundError for that path, whatever the years; with the
    file and an end year before the start year it returns the empty
    table, whatever columns the file has. *)
Theorem fips_pop_yearly_edges (fs : FileSystem) (pop_input_dir : string)
        (start_year end_year : Z) :
  (assoc (population_csv pop_input_dir) (population_files fs) = None ->
   fips_pop_yearly fs pop_input_dir start_year end_year
   = Raise (FileNotFoundError (population_csv pop_input_dir))) /\
  (forall df_pop,
      assoc (population_csv pop_input_dir) (population_files fs) = Some df_pop ->
      end_year < start_year ->
      fips_pop_yearly fs pop_input_dir start_year end_year = Ok []).
Proof.
  unfold fips_pop_yearly, read_csv. split.
  - intros H. now rewrite H.
  - intros df_pop H Hlt. rewrite H. simpl bind.
    now rewrite range_empty by lia.
Qed.

Lemma fips_pop_yearly_edges_sample :
  fips_pop_yearly files "elsewhere" 2015 2016
  = Raise (FileNotFoundError "elsewhere/county_populations_2000_to_2019.csv") /\
  fips_pop_yearly files "pop" 2030 2029 = Ok [].
Proof.
  split.
  - apply (proj1 (fips_pop_yearly_edges files "elsewhere" 2015 2016)). reflexivity.
  - apply (proj2 (fips_pop_yearly_edges files "pop" 2030 2029) county_populations);
      [reflexivity | lia].
Defined.

(** X8.  A population table without the county_FIPS column: for a
    non-empty year range [fips_pop_yearly] raises KeyError in the first
    turn of the loop, naming county_FIPS, after the column of the start
    year when that one is absent too. *)
Theorem fips_pop_yearly_no_county_column (fs : FileSystem) (pop_input_dir : string)
        (df_pop : Frame Z) (start_year end_year : Z) :
  read_csv (population_files fs) (population_csv pop_input_dir) = Ok df_pop ->
  has_column df_pop "county_FIPS" = false ->
  start_year <= end_year ->
  fips_pop_yearly fs pop_input_dir start_year end_year
  = Raise (KeyError (if has_column df_pop (pop_column start_year)
                     then ["county_FIPS"]
                     else [pop_column start_year; "county_FIPS"])).
Proof.
  intros Hread Hc Hle. unfold fips_pop_yearly. rewrite Hread. simpl bind.
  rewrite range_first by lia. simpl pop_years.
  unfold pop_year, getitems. cbn [filter]. rewrite Hc.
  destruct (has_column df_pop (pop_column start_year)); reflexivity.
Qed.

Lemma fips_pop_yearly_no_county_column_sample :
  fips_pop_yearly
    (mkFileSystem
       [("pop/county_populations_2000_to_2019.csv",
         mkFrame ["FIPS"; "pop_2015"] [[1; 100]])] [])
    "pop" 2014 2015
  = Raise (KeyError ["pop_2014"; "county_FIPS"]).
Proof.
  apply (fips_pop_yearly_no_county_column
           (mkFileSystem
              [("pop/county_populations_2000_to_2019.csv",
                mkFrame ["FIPS"; "pop_2015"] [[1; 100]])] [])
           "pop" (mkFrame ["FIPS"; "pop_2015"] [[1; 100]]) 2014 2015);
    [reflexivity | reflexivity | lia].
Defined.

End Population_more.

(** ** More on the merge and the sums *)

Section Aggregation_more.
Import PopInterp Vocabulary Scenario.

Lemma merge_left_unique (df_pop : list CountyPopulationRecord)
      (df_map : list CountyBAAssignment) :
  (forall c y, (List.length (assignments_of c y df_map) <= 1)%nat) ->
  merge_left df_pop df_map
  = map (fun l =>
           mkMergedRow l
             (option_map map_BA_Short_Name
                (hd_error (assignments_of (county_FIPS l) (year l) df_map))))
        df_pop.
Proof.
  intros Huniq. induction df_pop as [| l rest IH]; [reflexivity |].
  change (merge_left (l :: rest) df_map)
    with ((match assignments_of (county_FIPS l) (year l) df_map with
           | [] => [mkMergedRow l None]
           | matches =>
               map (fun r => mkMergedRow l (Some (map_BA_Short_Name r))) matches
           end) ++ merge_left rest df_map)%list.
  rewrite IH. cbn [map]. specialize (Huniq (county_FIPS l) (year l)).
  destruct (assignments_of (county_FIPS l) (year l) df_map) as [| m [| m' ms]];
    simpl in *; [reflexivity | reflexivity | lia].
Qed.

(** X9.  Left-join semantics of the merge: with at most one assignment
    row per county and year, the merged table has the population records
    unchanged and in their order, one row each, with the BA short name of
    the record's county and year, or a missing name when the county has
    no assignment that year. *)
Theorem merge_left_keeps_records (df_pop : list CountyPopulationRecord)
        (df_map : list CountyBAAssignment) :
  (forall c y, (List.length (assignments_of c y df_map) <= 1)%nat) ->
  map record (merge_left df_pop df_map) = df_pop /\
  (forall row, In row (merge_left df_pop df_map) ->
     BA_Short_Name row
     = option_map map_BA_Short_Name
         (hd_error (assignments_of (county_FIPS (record row)) (year (record row))
                      df_map))).
Proof.
  intros Huniq. rewrite (merge_left_unique df_pop df_map Huniq). split.
  - rewrite map_map. simpl. apply map_id.
  - intros row Hrow. apply in_map_iff in Hrow.
    destruct Hrow as [l [<- _]]. reflexivity.
Qed.

Lemma merge_left_keeps_records_scenario :
  map record (merge_left scenario_population scenario_assignment)
  = scenario_population /\
  map BA_Short_Name (merge_left scenario_population scenario_assignment)
  = [Some "TESTBA"; Some "TESTBA"; None; Some "TESTBA"; Some "TESTBA"; None].
Proof.
  split; [| reflexivity].
  apply (merge_left_keeps_records scenario_population scenario_assignment).
  intros c y. unfold assignments_of, scenario_assignment. cbn -[Z.eqb].
  destruct (Z.eqb_spec 1 c), (Z.eqb_spec 2 c), (Z.eqb_spec 2015 y),
    (Z.eqb_spec 2016 y); cbn; lia.
Defined.

Lemma int64_exact (x : Z) : 0 <= x < 2 ^ 63 -> int64 x = x.
Proof.
  intros H. unfold int64. rewrite Z.mod_small; lia.
Qed.

Lemma group_keys_sound (df : list MergedRow) (k : string * Z) :
  In k (group_keys df) -> exists r, In r df /\ group_key r = Some k.
Proof.
  unfold group_keys. intros H. apply unique_In, in_flat_map in H.
  destruct H as [r [Hr Hk]]. exists r. split; [assumption |].
  destruct (group_key r) as [k' |]; [| contradiction].
  destruct Hk as [-> | []]. reflexivity.
Qed.

Lemma groupby_sum_exact_keys (df : list MergedRow) :
  NoDup (keys (groupby_sum df)) /\ keys (groupby_sum df) = group_keys df.
Proof.
  assert (Hkeys : keys (groupby_sum df) = group_keys df).
  { unfold keys, groupby_sum. rewrite map_map. simpl.
    rewrite (map_ext _ (fun k => k)) by (now intros [n y]). apply map_id. }
  split; [rewrite Hkeys; apply unique_NoDup | assumption].
Qed.

(** X10.  What the groupby sum returns: one row per (BA short name,
    year) pair that occurs among the rows with a name, no pair twice; and,
    for non-negative populations whose grand total fits in 64 bits, each
    row's population is exactly the sum over the merged rows of that BA
    and year, so that the rows without a BA are in no sum. *)
Theorem groupby_sum_exact (df : list MergedRow) :
  NoDup (keys (groupby_sum df)) /\
  (forall k, In k (keys (groupby_sum df))
             <-> exists r, In r df /\ group_key r = Some k) /\
  ((forall r, In r df -> 0 <= population (record r)) ->
   total (map (fun r => population (record r)) df) < 2 ^ 63 ->
   (forall row, In row (groupby_sum df) ->
      pop row
      = total (map (fun r => population (record r))
                   (filter (in_group (name row, anchor_year row)) df))) /\
   total (map pop (groupby_sum df))
   = total (map (fun r => population (record r)) (filter has_group df))).
Proof.
  destruct (groupby_sum_exact_keys df) as [_ Hkeys].
  rewrite Hkeys. split; [apply unique_NoDup | split].
  - intros k. split; [apply group_keys_sound |].
    intros [r [Hr Hk]]. now apply (group_keys_complete df r).
  - intros Hpos Hfit.
    assert (Hexact : forall k,
               int64_sum (map (fun r => population (record r))
                              (filter (in_group k) df))
               = total (map (fun r => population (record r))
                            (filter (in_group k) df))).
    { intros k. rewrite int64_sum_total. apply int64_exact. split.
      - apply total_nonneg. intros x Hx. apply in_map_iff in Hx.
        destruct Hx as [r [<- Hr]]. apply Hpos. apply filter_In in Hr. tauto.
      - pose proof (total_filter_le (fun r => population (record r))
                      (in_group k) df Hpos). lia. }
    split.
    + intros row Hrow. unfold groupby_sum in Hrow. apply in_map_iff in Hrow.
      destruct Hrow as [k [<- _]]. simpl. destruct k as [n y]. apply Hexact.
    + unfold groupby_sum. rewrite map_map. simpl.
      rewrite (map_ext _ _ Hexact).
      apply group_totals; [apply unique_NoDup | apply group_keys_complete].
Qed.

Lemma groupby_sum_exact_scenario :
  total (map pop (groupby_sum (merge_left scenario_population scenario_assignment)))
  = 410 /\
  total (map (fun r => population (record r))
             (filter has_group (merge_left scenario_population scenario_assignment)))
  = 410.
Proof.
  destruct (groupby_sum_exact (merge_left scenario_population scenario_assignment))
    as [_ [_ Hsum]].
  destruct Hsum as [_ Htotal].
  - intros r Hr. simpl in Hr.
    repeat (destruct Hr as [<- | Hr]; [simpl; lia |]). contradiction.
  - vm_compute. reflexivity.
  - split; [rewrite Htotal |]; reflexivity.
Defined.

Lemma distinct_NoDup {A} (dec : forall x y : A, {x = y} + {x <> y}) (l : list A) :
  distinct dec l = true <-> NoDup l.
Proof.
  induction l as [| x l IH]; simpl.
  - split; [constructor | reflexivity].
  - rewrite andb_true_iff, negb_true_iff, IH. split.
    + intros [Hx Hl]. constructor; [| assumption].
      intros Hin. apply not_true_iff_false in Hx. apply Hx.
      apply existsb_exists. exists x. split; [assumption |].
      destruct (dec x x); [reflexivity | contradiction].
    + intros H. inversion H as [| ? ? Hx Hl]; subst. split; [| assumption].
      apply not_true_iff_false. intros Hex. apply existsb_exists in Hex.
      destruct Hex as [y [Hy Hxy]]. destruct (dec x y); [| discriminate].
      subst y. contradiction.
Qed.

(** X11.  The pivot succeeds exactly when no (BA, year) pair occurs in
    two rows, and raises ValueError otherwise; the table a groupby sum
    returns always pivots. *)
Theorem pivot_succeeds_iff (df : list BAAnnualPopulation) :
  (is_ok (pivot df) = true <-> NoDup (keys df)) /\
  (~ NoDup (keys df) ->
   pivot df = Raise (ValueError "Index contains duplicate entries, cannot reshape")) /\
  (forall merged, is_ok (pivot (groupby_sum merged)) = true).
Proof.
  assert (Hiff : forall d, is_ok (pivot d) = true <-> NoDup (keys d)).
  { intros d. rewrite <- (distinct_NoDup key_eq_dec). unfold pivot. fold (keys d).
    destruct (distinct key_eq_dec (keys d)); simpl; split; congruence. }
  split; [apply Hiff | split].
  - intros Hdup. rewrite <- (distinct_NoDup key_eq_dec) in Hdup.
    unfold pivot. fold (keys df).
    destruct (distinct key_eq_dec (keys df)); [congruence | reflexivity].
  - intros merged. apply Hiff. apply (proj1 (groupby_sum_exact_keys merged)).
Qed.

Lemma pivot_succeeds_iff_duplicate :
  pivot [mkBAAnnualPopulation "TESTBA" 2015 150; mkBAAnnualPopulation "TESTBA" 2015 1]
  = Raise (ValueError "Index contains duplicate entries, cannot reshape").
Proof.
  apply (proj1 (proj2 (pivot_succeeds_iff
           [mkBAAnnualPopulation "TESTBA" 2015 150;
            mkBAAnnualPopulation "TESTBA" 2015 1]))).
  intros H. inversion H as [| ? ? Hnotin _]. apply Hnotin. simpl. auto.
Defined.

End Aggregation_more.

(** ** More on the assignment merge and the hourly table *)

Section Pipeline_more.
Import PopInterp Vocabulary Scenario.



(** X13.  For every valid year range the hourly index runs from January
    1, 00:00 of the start year to December 31, 00:00 of the end year: it
    has 24 * (days - 1) + 1 entries, where days is the number of days
    from the first to the last day of the range, and the hour 23:00 of
    the last day is not in it. *)
Theorem hourly_index_of_range (start_year end_year : Z) :
  1678 <= start_year -> start_year <= end_year -> end_year <= 2261 ->
  exists idx,
    date_range start_year end_year = Ok idx /\
    Z.of_nat (List.length idx)
    = 24 * (days_between start_year 1 1 end_year 12 31 - 1) + 1 /\
    hd_error idx = Some (Timestamp start_year 1 1 0) /\
    last idx 0 = Timestamp end_year 12 31 0 /\
    (forall t, In t idx <->
               Timestamp start_year 1 1 0 <= t <= Timestamp end_year 12 31 0) /\
    ~ In (Timestamp end_year 12 31 23) idx.
Proof.
  intros Hs Hse He.
  destruct (date_range_entries start_year end_year Hs Hse He)
    as [idx [Hidx [Hlen [Hhd [Hlast Hnot]]]]].
  exists idx. do 4 (split; [assumption |]). split; [| assumption].
  intros t. rewrite date_range_valid in Hidx by lia. inversion Hidx; subst idx.
  apply hours_from_to_In.
Qed.

Lemma hourly_index_of_range_2015_2019 :
  exists idx,
    date_range 2015 2019 = Ok idx /\
    Z.of_nat (List.length idx) = 24 * (1826 - 1) + 1.
Proof.
  destruct (hourly_index_of_range 2015 2019) as [idx [Hidx [Hlen _]]]; try lia.
  exists idx. split; [assumption |]. rewrite Hlen. reflexivity.
Defined.

(** X14.  Edges of the hourly index: an end year before the start year
    (both within pandas' bounds) gives the empty index, not an error; a
    four-digit start year outside 1678..2262, or end year outside
    1677..2261, raises OutOfBoundsDatetime for the date text. *)
Theorem hourly_index_edges (start_year end_year : Z) :
  (1678 <= start_year <= 2262 -> 1677 <= end_year <= 2261 ->
   end_year < start_year -> date_range start_year end_year = Ok []) /\
  (1000 <= start_year <= 9999 -> start_year < 1678 \/ 2262 < start_year ->
   date_range start_year end_year
   = Raise (OutOfBoundsDatetime (str start_year ++ "-01-01"))) /\
  (1678 <= start_year <= 2262 -> 1000 <= end_year <= 9999 ->
   end_year < 1677 \/ 2261 < end_year ->
   date_range start_year end_year
   = Raise (OutOfBoundsDatetime (str end_year ++ "-12-31"))).
Proof.
  destruct timestamp_bounds as [Elo [Ehi [E1678 E2262]]].
  assert (Hjan : forall y, Timestamp y 1 1 0 = 24 * (days_before_year y + 1)).
  { intros y. unfold Timestamp, toordinal, days_before_month.
    change (2 <? 1) with false. cbn [andb].
    change (nth (Z.to_nat (1 - 1)) _ 0) with 0. lia. }
  assert (Hdec : forall y, Timestamp y 12 31 0 = 24 * days_before_year (y + 1)).
  { intros y. unfold Timestamp. rewrite last_day_of_year. lia. }
  split; [| split].
  - intros Hs He Hlt. rewrite date_range_valid by lia. f_equal.
    unfold hours_from_to.
    assert (H : days_before_year (end_year + 1) <= days_before_year start_year)
      by (apply days_before_year_mono; lia).
    rewrite Hjan, Hdec.
    now replace (Z.to_nat _) with O by lia.
  - intros _ Hout. unfold date_range, to_timestamp.
    replace ((Timestamp 1677 9 22 0 <=? Timestamp start_year 1 1 0)
             && (Timestamp start_year 1 1 0 <=? Timestamp 2262 4 11 0)) with false;
      [reflexivity |].
    symmetry. apply andb_false_iff. rewrite !Z.leb_gt, Elo, Ehi, Hjan.
    destruct Hout as [Hlow | Hhigh].
    + left.
      assert (H : days_before_year start_year <= days_before_year 1677)
        by (apply days_before_year_mono; lia).
      change (days_before_year 1677) with 612147 in H. lia.
    + right.
      assert (H : days_before_year 2263 <= days_before_year start_year)
        by (apply days_before_year_mono; lia).
      change (days_before_year 2263) with 826178 in H. lia.
  - intros Hs _ Hout. unfold date_range.
    rewrite to_timestamp_first by lia. simpl bind. unfold to_timestamp.
    replace ((Timestamp 1677 9 22 0 <=? Timestamp end_year 12 31 0)
             && (Timestamp end_year 12 31 0 <=? Timestamp 2262 4 11 0)) with false;
      [reflexivity |].
    symmetry. apply andb_false_iff. rewrite !Z.leb_gt, Elo, Ehi, Hdec.
    destruct Hout as [Hlow | Hhigh].
    + left.
      assert (H : days_before_year (end_year + 1) <= days_before_year 1677)
        by (apply days_before_year_mono; lia).
      change (days_before_year 1677) with 612147 in H. lia.
    + right.
      assert (H : days_before_year 2263 <= days_before_year (end_year + 1))
        by (apply days_before_year_mono; lia).
      change (days_before_year 2263) with 826178 in H. lia.
Qed.

Lemma hourly_index_edges_sample :
  date_range 2019 2015 = Ok [] /\
  date_range 1600 2015 = Raise (OutOfBoundsDatetime "1600-01-01") /\
  date_range 2015 2262 = Raise (OutOfBoundsDatetime "2262-12-31").
Proof.
  split; [| split].
  - apply (proj1 (hourly_index_edges 2019 2015)); lia.
  - apply (proj1 (proj2 (hourly_index_edges 1600 2015))); lia.
  - apply (proj2 (proj2 (hourly_index_edges 2015 2262))); lia.
Defined.



(** X16.  The exception of [merge_mapping_data] goes through its two
    callers unchanged: for every input, [ba_pop_sum] and
    [ba_pop_interpolate] raise the very exception [merge_mapping_data]
    raises, so neither sums a table nor writes a file. *)
Theorem population_pipeline_raises (fs : FileSystem)
        (mapping_input_dir population_input_dir output_dir : string)
        (start_year end_year : Z) :
  exists e,
    merge_mapping_data fs mapping_input_dir population_input_dir start_year end_year
    = Raise e /\
    ba_pop_sum fs mapping_input_dir population_input_dir start_year end_year
    = Raise e /\
    ba_pop_interpolate fs mapping_input_dir population_input_dir output_dir
      start_year end_year = Raise e.
Proof.
  pose proof (merge_mapping_data_never_returns fs mapping_input_dir
                population_input_dir start_year end_year) as H.
  unfold ba_pop_interpolate, ba_pop_sum.
  destruct (merge_mapping_data _ _ _ _ _) as [df | e]; [discriminate |].
  exists e. repeat split.
Qed.

End Pipeline_more.


(** ** The quickstarter data *)

Section Quickstarter_properties.
Import Quickstarter QuickstarterVocabulary QuickstarterSamples.

Lemma add_dirs_files (needed : list Path) (w : World) :
  files (fold_left add_dir needed w) = files w /\
  stdout (fold_left add_dir needed w) = stdout w.
Proof.
  revert w. induction needed as [| p needed IH]; intros w; simpl; [auto |].
  destruct (IH (add_dir w p)) as [Hf Hs]. rewrite Hf, Hs.
  unfold add_dir. destruct (is_dir w p); auto.
Qed.


Lemma read_file_written (w : World) (p q : Path) (data : string) :
  read_file (write_file w p data) q
  = if path_eq_dec p q then Some data else read_file w q.
Proof.
  unfold read_file, write_file. simpl.
  destruct (path_eq_dec p q) as [-> | Hne]; [reflexivity |].
  induction (files w) as [| f fs IH]; simpl; [reflexivity |].
  destruct (path_eq_dec (fst f) p) as [E | E]; simpl.
  - destruct (path_eq_dec (fst f) q); [congruence | exact IH].
  - destruct (path_eq_dec (fst f) q); [reflexivity | exact IH].
Qed.

Lemma read_file_same_files (w w' : World) (q : Path) :
  files w' = files w -> read_file w' q = read_file w q.
Proof. unfold read_file. now intros ->. Qed.

(** What extracting one member does to the files and to what is printed. *)
Lemma extract_member_files (target : Path) (w w' : World) (m : Member) (q : Path) :
  extract_member target w m = (w', None) ->
  stdout w' = stdout w /\
  read_file w' q
  = if member_is_dir m then read_file w q
    else if path_eq_dec (target ++ member_path m)%list q
         then Some (member_data m) else read_file w q.
Proof.
  unfold extract_member.
  destruct (member_is_dir m).
  - destruct (existsb (is_file w) _); [discriminate |].
    destruct (add_dirs_files (prefixes (target ++ member_path m)%list) w) as [Hf Hs].
    intros H. inversion H; subst w'. split; [assumption |].
    now apply read_file_same_files.
  - destruct (existsb (is_file w) _); [discriminate |].
    destruct (add_dirs_files (prefixes (removelast (target ++ member_path m)%list)) w)
      as [Hf Hs].
    destruct (is_dir _ _); [discriminate |].
    intros H. inversion H; subst w'. split; [assumption |].
    rewrite read_file_written.
    destruct (path_eq_dec _ q); [reflexivity | now apply read_file_same_files].
Qed.

Lemma extract_member_failed (target : Path) (w w' : World) (m : Member)
      (e : Exception) :
  extract_member target w m = (w', Some e) ->
  stdout w' = stdout w /\ e = OSError (target ++ member_path m)%list.
Proof.
  unfold extract_member.
  destruct (member_is_dir m).
  - destruct (existsb (is_file w) _); [| discriminate].
    intros H. inversion H; subst. auto.
  - destruct (existsb (is_file w) _).
    + intros H. inversion H; subst. auto.
    + destruct (add_dirs_files (prefixes (removelast (target ++ member_path m)%list)) w)
        as [_ Hs].
      destruct (is_dir _ _); [| discriminate].
      intros H. inversion H; subst. auto.
Qed.

Lemma extractall_stdout (members : list Member) (target : Path) (w w' : World)
      (r : option Exception) :
  extractall members target w = (w', r) ->
  stdout w' = stdout w /\ before_extraction_or_none r = true.
Proof.
  revert w. induction members as [| m members IH]; intros w; simpl.
  - intros H. inversion H; subst. auto.
  - destruct (extract_member target w m) as [w1 [e |]] eqn:Hm.
    + intros H. inversion H; subst.
      apply extract_member_failed in Hm. destruct Hm as [Hs ->]. auto.
    + intros H. apply IH in H. destruct H as [Hs Hr].
      destruct (extract_member_files target w w1 m [] Hm) as [Hs1 _].
      split; [congruence | assumption].
Qed.

Lemma is_dir_In (w : World) (p : Path) :
  is_dir w p = true <-> p = [] \/ In p (dirs w).
Proof.
  unfold is_dir. destruct p as [| c p].
  - split; auto.
  - rewrite existsb_exists. split.
    + intros [d [Hd Hp]]. destruct (path_eq_dec d (c :: p)); [| discriminate].
      subst d. auto.
    + intros [H | H]; [discriminate |]. exists (c :: p). split; [assumption |].
      destruct (path_eq_dec (c :: p) (c :: p)); [reflexivity | contradiction].
Qed.




Lemma find_filter_keeps {A} (f g : A -> bool) (l : list A) :
  (forall x, f x = true -> g x = true) -> find f (filter g l) = find f l.
Proof.
  intros Hfg. induction l as [| x l IH]; simpl; [reflexivity |].
  destruct (g x) eqn:Hg; simpl.
  - destruct (f x); [reflexivity | exact IH].
  - destruct (f x) eqn:Hf; [| exact IH].
    apply Hfg in Hf. congruence.
Qed.

Lemma find_filter_drops {A} (f g : A -> bool) (l : list A) :
  (forall x, f x = true -> g x = false) -> find f (filter g l) = None.
Proof.
  intros Hfg. induction l as [| x l IH]; simpl; [reflexivity |].
  destruct (g x) eqn:Hg; simpl; [| exact IH].
  destruct (f x) eqn:Hf; [| exact IH].
  apply Hfg in Hf. congruence.
Qed.

(** What [shutil.rmtree] leaves. *)
Lemma rmtree_done (p : Path) (w w' : World) :
  rmtree p w = (w', None) ->
  stdout w' = stdout w /\
  (forall q, is_prefix p q = true -> q <> [] ->
             is_dir w' q = false /\ read_file w' q = None) /\
  (forall q, is_prefix p q = false -> read_file w' q = read_file w q).
Proof.
  unfold rmtree. destruct (is_dir w p); [| destruct (is_file w p); discriminate].
  intros H. inversion H; subst w'; clear H. simpl.
  split; [reflexivity | split].
  - intros q Hq Hne. split.
    + apply not_true_iff_false. intros Hd. apply is_dir_In in Hd.
      destruct Hd as [Hd | Hd]; [contradiction |]. simpl in Hd.
      apply filter_In in Hd. destruct Hd as [_ Hd]. now rewrite Hq in Hd.
    + unfold read_file. simpl. rewrite find_filter_drops; [reflexivity |].
      intros f Hf. destruct (path_eq_dec (fst f) q); [| discriminate].
      subst q. now rewrite Hq.
  - intros q Hq. unfold read_file. simpl. rewrite find_filter_keeps; [reflexivity |].
    intros f Hf. destruct (path_eq_dec (fst f) q); [| discriminate].
    subst q. now rewrite Hq.
Qed.

Lemma rmtree_failed (p : Path) (w w' : World) (e : Exception) :
  rmtree p w = (w', Some e) ->
  w' = w /\ is_dir w p = false /\
  e = (if is_file w p then NotADirectoryError p else FileNotFoundError p).
Proof.
  unfold rmtree. destruct (is_dir w p); [discriminate |].
  destruct (is_file w p); intros H; inversion H; auto.
Qed.

Lemma fetch_zenodo_steps (env : Environment) (data_dir : option Path) (w : World) :
  Fetched env data_dir w (fetch_zenodo env data_dir w).
Proof.
  unfold fetch_zenodo.
  destruct (installed env) as [v |] eqn:Hv; [| now constructor].
  destruct (assoc v DATA_VERSION_URLS) as [data_link |] eqn:Hl;
    [| now apply unknown_version].
  fold (downloading v).
  destruct (web env data_link) as [[members | text] |] eqn:Hw.
  - destruct (extractall members _ _) as [w1 [e |]] eqn:He.
    + eapply extraction_failed; eassumption.
    + destruct data_dir as [d |].
      * fold (mac_dir d).
        destruct (rmtree (mac_dir d) w1) as [w2 [e |]] eqn:Hr.
        -- pose proof (rmtree_failed _ _ _ _ Hr) as [-> _].
           eapply rmtree_failed_after; eauto.
        -- eapply done; eauto.
      * eapply no_data_dir; eauto.
  - eapply not_a_zip; eassumption.
  - eapply request_failed; eassumption.
Qed.


Lemma fetch_zenodo_returned (env : Environment) (data_dir : option Path)
        (w w' : World) :
  fetch_zenodo env data_dir w = (w', None) -> data_dir <> None.
Proof.
  intros H. pose proof (fetch_zenodo_steps env data_dir w) as Hs.
  rewrite H in Hs. inversion Hs; subst. discriminate.
Qed.

(** X17.  When the call returns, the data directory was given, nothing of
    a [__MACOSX] directory is left in it, neither the directory nor a
    directory or file below it, and the two lines "Downloading ..." and
    "Done!" have been printed, in that order. *)
Theorem fetch_zenodo_returns (env : Environment) (data_dir : option Path)
        (w w' : World) :
  fetch_zenodo env data_dir w = (w', None) ->
  exists d v,
    data_dir = Some d /\ installed env = Some v /\
    stdout w' = (stdout w ++ [downloading v; "Done!"])%list /\
    (forall q, is_prefix (mac_dir d) q = true ->
               is_dir w' q = false /\ read_file w' q = None).
Proof.
  intros H. pose proof (fetch_zenodo_steps env data_dir w) as Hs.
  rewrite H in Hs. inversion Hs; subst.
  exists d, v. split; [reflexivity | split; [assumption |]].
  match goal with Hr : rmtree _ _ = (_, None) |- _ =>
    apply rmtree_done in Hr; destruct Hr as [Hout [Hgone _]] end.
  match goal with He : extractall _ _ _ = _ |- _ =>
    apply extractall_stdout in He; destruct He as [Hout1 _] end.
  split.
  - simpl. rewrite Hout, Hout1. simpl. now rewrite <- app_assoc.
  - intros q Hq. apply Hgone; [assumption |].
    intros ->. unfold mac_dir in Hq. destruct d; discriminate.
Qed.

Lemma fetch_zenodo_returns_mac :
  exists w',
    fetch_zenodo (serving (Archive mac_archive) "0.1.1") (Some ["data"]) empty_world
    = (w', None) /\
    is_dir w' ["data"; "__MACOSX"] = false /\
    read_file w' ["data"; "__MACOSX"; "tell_data"; "._load.csv"] = None /\
    read_file w' ["data"; "tell_data"; "load.csv"] = Some "Year,Month".
Proof.
  eexists. split; [vm_compute; reflexivity |].
  destruct (fetch_zenodo_returns (serving (Archive mac_archive) "0.1.1")
              (Some ["data"]) empty_world _ eq_refl)
    as [d [v [Hd [_ [_ Hgone]]]]].
  inversion Hd; subst d.
  split; [apply (Hgone ["data"; "__MACOSX"]); reflexivity |].
  split; [apply (Hgone ["data"; "__MACOSX"; "tell_data"; "._load.csv"]); reflexivity |].
  reflexivity.
Defined.

(** X18.  Without a data directory (the default of both entry points)
    the call never returns: whatever is installed and served, it raises,
    and when the archive is downloaded and extracts, it is extracted into
    the working directory before TypeError is raised, "Done!" not being
    printed. *)
Theorem fetch_zenodo_without_data_dir (env : Environment) (w : World) :
  snd (install_quickstarter_data env None w) <> None /\
  (forall v data_link members w1,
      installed env = Some v ->
      assoc v DATA_VERSION_URLS = Some data_link ->
      web env data_link = Some (Archive members) ->
      extractall members (cwd env) (print w (downloading v)) = (w1, None) ->
      fetch_zenodo env None w = (w1, Some TypeError) /\
      stdout w1 = (stdout w ++ [downloading v])%list).
Proof.
  split.
  - unfold install_quickstarter_data.
    destruct (fetch_zenodo env None w) as [w' [e |]] eqn:H; [discriminate |].
    apply fetch_zenodo_returned in H. now exfalso.
  - intros v data_link members w1 Hv Hl Hw He.
    unfold fetch_zenodo. rewrite Hv, Hl. fold (downloading v). rewrite Hw, He.
    split; [reflexivity |].
    apply extractall_stdout in He. now destruct He as [-> _].
Qed.

Lemma fetch_zenodo_without_data_dir_mac :
  exists w1,
    fetch_zenodo (serving (Archive mac_archive) "0.1.1") None empty_world
    = (w1, Some TypeError) /\
    read_file w1 ["home"; "user"; "tell_data"; "load.csv"] = Some "Year,Month" /\
    is_dir w1 ["home"; "user"; "__MACOSX"] = true.
Proof.
  eexists. split.
  - apply (proj2 (fetch_zenodo_without_data_dir
                    (serving (Archive mac_archive) "0.1.1") empty_world)
             "0.1.1" link mac_archive); vm_compute; reflexivity.
  - split; reflexivity.
Defined.

(** X19.  A failure before the extraction leaves directories and files
    as they were: a distribution that is not installed, a version without
    a link (KeyError naming the version, nothing printed, nothing
    requested), a request that fails, and a response that is no zip
    archive (BadZipFile, an error page included). *)
Theorem fetch_zenodo_early_failure (env : Environment) (data_dir : option Path)
        (w : World) :
  (forall w' e, fetch_zenodo env data_dir w = (w', Some e) ->
                before_extraction e = true ->
                dirs w' = dirs w /\ files w' = files w) /\
  (forall v, installed env = Some v ->
             assoc v DATA_VERSION_URLS = None ->
             fetch_zenodo env data_dir w
             = (w, Some (KeyError ("Link to data missing for current version: "
                                   ++ v ++ ". Please contact an administrator.")))) /\
  (forall v data_link text,
      installed env = Some v ->
      assoc v DATA_VERSION_URLS = Some data_link ->
      web env data_link = Some (Page text) ->
      fetch_zenodo env data_dir w = (print w (downloading v), Some BadZipFile)).
Proof.
  split; [| split].
  - intros w' e H He. pose proof (fetch_zenodo_steps env data_dir w) as Hs.
    rewrite H in Hs. inversion Hs; subst; try (split; reflexivity);
      try discriminate.
    + match goal with Hx : extractall _ _ _ = _ |- _ =>
        apply extractall_stdout in Hx; destruct Hx as [_ Hx] end.
      destruct e; discriminate.
    + match goal with Hr : rmtree _ _ = (_, Some _) |- _ =>
        apply rmtree_failed in Hr; destruct Hr as [_ [_ Hr]] end.
      destruct (is_file w' (mac_dir d)); subst e; discriminate.
  - intros v Hv Hl. unfold fetch_zenodo. now rewrite Hv, Hl.
  - intros v data_link text Hv Hl Hw. unfold fetch_zenodo.
    rewrite Hv, Hl. fold (downloading v). now rewrite Hw.
Qed.

Lemma fetch_zenodo_early_failure_samples :
  fetch_zenodo (serving (Archive mac_archive) "0.2.0") (Some ["data"]) empty_world
  = (empty_world,
     Some (KeyError "Link to data missing for current version: 0.2.0. Please contact an administrator.")) /\
  snd (fetch_zenodo (serving (Page "404 Not Found") "0.1.0") (Some ["data"]) empty_world)
  = Some BadZipFile.
Proof.
  split.
  - apply (proj1 (proj2 (fetch_zenodo_early_failure
                           (serving (Archive mac_archive) "0.2.0") (Some ["data"])
                           empty_world)) "0.2.0"); reflexivity.
  - rewrite (proj2 (proj2 (fetch_zenodo_early_failure
                             (serving (Page "404 Not Found") "0.1.0") (Some ["data"])
                             empty_world)) "0.1.0" link "404 Not Found");
      reflexivity.
Defined.









End Quickstarter_properties.
